(** * BuzzGuard feedback backend: a shallow embedding

    The development follows the two code files of the repository that
    carry the feedback lifecycle:

    - [models/Feedback.js]: the Mongoose schema (setters, defaults,
      validators), the pre-save auto-tag hook and the two statics
      [getPublicFeedback] and [getStats];
    - [routes/feedback.js]: the Joi validation schema and the route
      handlers (submit, list, recent, delete).

    Conventions.
    - A JavaScript string is a [string]: a sequence of code units, here
      restricted to the range U+0000..U+00FF.
    - A JavaScript Number that takes part in arithmetic is a binary64
      [float]; counters are kept as [Z] and converted where the code
      divides or multiplies them.
    - The collection is a list of documents in insertion order; the time
      is a number of milliseconds handed to every operation that reads
      the clock.
    - The nested [response] sub-document of the schema is never read or
      written by the operations below and is left out of the record. *)

From Stdlib Require Import ZArith List String Ascii Bool Lia DecimalString.
From Stdlib Require Import Floats.
From Stdlib Require Import Sorted Permutation.
Import ListNotations.

Set Warnings "-inexact-float".

Open Scope string_scope.
Open Scope list_scope.
Open Scope Z_scope.

(* ================================================================== *)
(** * JavaScript strings *)
(* ================================================================== *)

Definition code (c : ascii) : nat := nat_of_ascii c.

Definition between (lo hi n : nat) : bool := (Nat.leb lo n && Nat.leb n hi)%bool.

(** Upper-case letters of the range: A..Z, and U+00C0..U+00DE without the
    multiplication sign U+00D7. *)
Definition isUpper (c : ascii) : bool :=
  between 65 90 (code c)
  || (between 192 222 (code c) && negb (Nat.eqb (code c) 215)).

Definition toLowerCase_char (c : ascii) : ascii :=
  if isUpper c then ascii_of_nat (code c + 32) else c.

(** [String.prototype.toLowerCase]. *)
Fixpoint toLowerCase (s : string) : string :=
  match s with
  | EmptyString => EmptyString
  | String c t => String (toLowerCase_char c) (toLowerCase t)
  end.

(** White space and line terminators of the range: TAB, LF, VT, FF, CR,
    SPACE and NO-BREAK SPACE. *)
Definition isWhiteSpace (c : ascii) : bool :=
  between 9 13 (code c) || Nat.eqb (code c) 32 || Nat.eqb (code c) 160.

Fixpoint trimStart (s : string) : string :=
  match s with
  | EmptyString => EmptyString
  | String c t => if isWhiteSpace c then trimStart t else s
  end.

Fixpoint trimEnd (s : string) : string :=
  match s with
  | EmptyString => EmptyString
  | String c t =>
      match trimEnd t with
      | EmptyString => if isWhiteSpace c then EmptyString else String c EmptyString
      | t' => String c t'
      end
  end.

(** [String.prototype.trim]. *)
Definition trim (s : string) : string := trimEnd (trimStart s).

Fixpoint startsWith (s needle : string) {struct needle} : bool :=
  match needle, s with
  | EmptyString, _ => true
  | String _ _, EmptyString => false
  | String a n', String b s' => Ascii.eqb a b && startsWith s' n'
  end.

(** [String.prototype.includes]: [includes s needle] is [s.includes(needle)]. *)
Fixpoint includes (s needle : string) : bool :=
  startsWith s needle
  || match s with
     | EmptyString => false
     | String _ t => includes t needle
     end.

(** Truthiness of a string value: every string but the empty one. *)
Definition truthy_string (s : string) : bool :=
  match s with EmptyString => false | _ => true end.

Definition all_chars (p : ascii -> bool) (s : string) : bool :=
  forallb p (list_ascii_of_string s).

(** [split sep s]: the pieces of [s] between occurrences of the character
    [sep] (at least one piece, possibly empty). *)
Fixpoint split (sep : ascii) (s : string) : list string :=
  match s with
  | EmptyString => [EmptyString]
  | String c t =>
      if Ascii.eqb c sep then EmptyString :: split sep t
      else match split sep t with
           | p :: ps => String c p :: ps
           | [] => [String c EmptyString]
           end
  end.

(** The double quote, which Joi wraps around a label. *)
Definition dquote : string := String (ascii_of_nat 34) EmptyString.

(* ================================================================== *)
(** * JavaScript numbers *)
(* ================================================================== *)

(** An integer as a Number (exact below 2^53). *)
Definition Z2F (z : Z) : float :=
  if z <? 0 then (- of_uint63 (Uint63.of_Z (- z)))%float
  else of_uint63 (Uint63.of_Z z).

(** Truthiness of a Number: every value but zero and NaN. *)
Definition truthy_number (x : float) : bool := negb (is_zero x || is_nan x).

(** [half_up m e] is the integer nearest to [m * 2^e], the larger one
    when two are equally near. *)
Definition half_up (m e : Z) : Z :=
  if 0 <=? e then m * 2 ^ e else (2 * m + 2 ^ (- e)) / 2 ^ (1 - e).

(** [Math.round]: the integral Number closest to the argument, ties
    towards plus infinity; computed on the exact value of the double. *)
Definition Math_round (x : float) : float :=
  match Prim2SF x with
  | S754_finite s m e => Z2F (half_up (cond_Zopp s (Zpos m)) e)
  | _ => x
  end.

(** [Number(x.toFixed(1))] for a magnitude below 1e21: [toFixed] picks the
    integer [n] with [n / 10] nearest to the magnitude of [x] (the larger
    one on a tie) and prints its decimal digits; [Number] reads them back
    as the nearest double, which is the correctly rounded quotient of [n]
    by ten. *)
Definition Number_toFixed1 (x : float) : float :=
  match Prim2SF x with
  | S754_finite s m e =>
      let n := half_up (10 * Zpos m) e in
      if s then (- (Z2F n / 10))%float else (Z2F n / 10)%float
  | _ => x
  end.

(** [Math.ceil] on the exact value of the double. *)
Definition Math_ceil (x : float) : float :=
  match Prim2SF x with
  | S754_finite s m e =>
      let n := cond_Zopp s (Zpos m) in
      Z2F (if 0 <=? e then n * 2 ^ e else - ((- n) / 2 ^ (- e)))
  | _ => x
  end.

(* ================================================================== *)
(** * models/Feedback.js: the schema *)
(* ================================================================== *)

(** [enum: ['new', 'read', 'responded', 'archived']] *)
Inductive Status := S_new | S_read | S_responded | S_archived.

(** [enum: ['low', 'medium', 'high', 'urgent']] *)
Inductive Priority := P_low | P_medium | P_high | P_urgent.

Definition status_name (s : Status) : string :=
  match s with
  | S_new => "new" | S_read => "read"
  | S_responded => "responded" | S_archived => "archived"
  end.

Definition priority_name (p : Priority) : string :=
  match p with
  | P_low => "low" | P_medium => "medium" | P_high => "high" | P_urgent => "urgent"
  end.

(** A stored document. [rating] is absent on documents written before
    the path was added to the schema (scripts/migrate-ratings.js fills
    it in); [contactNumber], [ipAddress] and [userAgent] are optional. *)
Record Feedback := mkFeedback {
  _id : Z;
  name : string;
  email : string;
  contactNumber : option string;
  message : string;
  rating : option Z;
  status : Status;
  ipAddress : option string;
  userAgent : option string;
  isPublic : bool;
  priority : Priority;
  tags : list string;
  createdAt : Z;
  updatedAt : Z
}.

Definition Store := list Feedback.

Definition set_priority (p : Priority) (d : Feedback) : Feedback :=
  mkFeedback (_id d) (name d) (email d) (contactNumber d) (message d) (rating d)
    (status d) (ipAddress d) (userAgent d) (isPublic d) p (tags d)
    (createdAt d) (updatedAt d).

Definition set_tags (ts : list string) (d : Feedback) : Feedback :=
  mkFeedback (_id d) (name d) (email d) (contactNumber d) (message d) (rating d)
    (status d) (ipAddress d) (userAgent d) (isPublic d) (priority d) ts
    (createdAt d) (updatedAt d).

(** The object handed to [new Feedback(...)]: the paths a caller of this
    repository supplies. Every other path takes its schema default. *)
Record FeedbackData := mkData {
  d_name : option string;
  d_email : option string;
  d_contactNumber : option string;
  d_message : option string;
  d_rating : option Z;
  d_ipAddress : option string;
  d_userAgent : option string
}.

(** ** Setters

    Mongoose runs the setters of a path from the last declared to the
    first; [email] declares [trim] and then [lowercase]. *)
Definition set_trim (v : option string) : option string := option_map trim v.

Definition set_email (v : option string) : option string :=
  option_map (fun s => trim (toLowerCase s)) v.

Definition applySetters (data : FeedbackData) : FeedbackData :=
  mkData (set_trim (d_name data)) (set_email (d_email data))
    (set_trim (d_contactNumber data)) (set_trim (d_message data))
    (d_rating data) (d_ipAddress data) (d_userAgent data).

(** ** Validators *)

Record ValidatorError := mkVErr { v_path : string; v_message : string }.

(** The character classes of the [match] pattern
    [/^[\w-\.]+@([\w-]+\.)+[\w-]{2,4}$/]. *)
Definition isWordChar (c : ascii) : bool :=
  between 48 57 (code c) || between 65 90 (code c)
  || between 97 122 (code c) || Nat.eqb (code c) 95.

Definition isWordOrDash (c : ascii) : bool := isWordChar c || Nat.eqb (code c) 45.

Definition isLocalChar (c : ascii) : bool := isWordOrDash c || Nat.eqb (code c) 46.

Definition isLabel (s : string) : bool := truthy_string s && all_chars isWordOrDash s.

(** The pattern, decided directly: one at-sign; before it a non-empty
    run of local characters; after it at least two dot-separated
    labels, the last one of two to four characters. *)
Definition email_pattern (s : string) : bool :=
  match split (ascii_of_nat 64) s with
  | [loc; domain] =>
      truthy_string loc && all_chars isLocalChar loc
      && match rev (split (ascii_of_nat 46) domain) with
         | tld :: l :: ls =>
             between 2 4 (String.length tld) && all_chars isWordOrDash tld
             && forallb isLabel (l :: ls)
         | _ => false
         end
  | _ => false
  end.

(** The validators of a String path, in declaration order. [required]
    rejects a missing or empty value; the others are skipped on a
    missing value, and [match] also passes the empty string. *)
Definition validate_String (path : string) (required : option string)
    (minlength maxlength : option (nat * string)) (pattern : option string)
    (v : option string) : list ValidatorError :=
  let err m := [mkVErr path m] in
  (match required, v with
   | Some m, None => err m
   | Some m, Some s => if truthy_string s then [] else err m
   | None, _ => []
   end)
  ++ (match v with
      | Some s =>
          (match minlength with
           | Some (n, m) => if Nat.ltb (String.length s) n then err m else []
           | None => []
           end)
          ++ (match maxlength with
              | Some (n, m) => if Nat.ltb n (String.length s) then err m else []
              | None => []
              end)
          ++ (match pattern with
              | Some m =>
                  if negb (truthy_string s) || email_pattern s then [] else err m
              | None => []
              end)
      | None => []
      end).

(** [rating: { type: Number, min: 1, max: 5, default: 5 }] *)
Definition validate_rating (v : Z) : list ValidatorError :=
  (if v <? 1 then [mkVErr "rating" "min"] else [])
  ++ (if 5 <? v then [mkVErr "rating" "max"] else []).

Definition default_rating : Z := 5.

(** Document validation, run by [save] before the pre-save hook. *)
Definition validateSync (data : FeedbackData) : list ValidatorError :=
  validate_String "name" (Some "Name is required")
    (Some (2%nat, "Name must be at least 2 characters long"))
    (Some (100%nat, "Name cannot exceed 100 characters")) None (d_name data)
  ++ validate_String "email" (Some "Email is required") None None
       (Some "Please provide a valid email address") (d_email data)
  ++ validate_String "contactNumber" None
       (Some (10%nat, "Contact number must be at least 10 digits"))
       (Some (20%nat, "Contact number cannot exceed 20 characters")) None
       (d_contactNumber data)
  ++ validate_String "message" (Some "Message is required")
       (Some (10%nat, "Message must be at least 10 characters long"))
       (Some (1000%nat, "Message cannot exceed 1000 characters")) None
       (d_message data)
  ++ validate_rating (match d_rating data with Some r => r | None => default_rating end).

Definition or_empty (v : option string) : string :=
  match v with Some s => s | None => EmptyString end.

(** The document a validated [data] becomes: defaults fill the paths
    the caller left out. *)
Definition document_of (id now : Z) (data : FeedbackData) : Feedback :=
  mkFeedback id (or_empty (d_name data)) (or_empty (d_email data))
    (d_contactNumber data) (or_empty (d_message data))
    (Some (match d_rating data with Some r => r | None => default_rating end))
    S_new (d_ipAddress data) (d_userAgent data) true P_medium [] now now.

(* ================================================================== *)
(** * models/Feedback.js: the pre-save hook *)
(* ================================================================== *)

(** [[...new Set(xs)]]: the elements of [xs] in order of first
    occurrence. *)
Definition Set_add (acc : list string) (x : string) : list string :=
  if existsb (String.eqb x) acc then acc else acc ++ [x].

Definition Set_spread (xs : list string) : list string :=
  fold_left Set_add xs [].

(** One rule of the hook: when the lower-cased message contains one of
    the keywords, push the tag and, for the rules that do so, assign
    the priority. The state is the pair of [autoTags] and [this]. *)
Definition tag_rule (msg : string) (keywords : list string) (tag : string)
    (assign : option Priority) (st : list string * Feedback)
  : list string * Feedback :=
  if existsb (includes msg) keywords
  then (fst st ++ [tag],
        match assign with Some p => set_priority p (snd st) | None => snd st end)
  else st.

Definition bug_keywords : list string := ["bug"; "error"; "issue"].
Definition feature_keywords : list string := ["feature"; "suggestion"; "improve"].
Definition mobile_keywords : list string := ["app"; "mobile"].
Definition hardware_keywords : list string := ["device"; "esp32"; "hardware"].
Definition positive_keywords : list string := ["great"; "awesome"; "love"].
Definition negative_keywords : list string := ["problem"; "difficult"; "hate"].

(** [feedbackSchema.pre('save', ...)]. *)
Definition pre_save (isNew : bool) (this : Feedback) : Feedback :=
  if isNew && truthy_string (message this) then
    let msg := toLowerCase (message this) in
    let st0 := ([], this) in
    let st1 := tag_rule msg bug_keywords "bug-report" (Some P_high) st0 in
    let st2 := tag_rule msg feature_keywords "feature-request" None st1 in
    let st3 := tag_rule msg mobile_keywords "mobile-app" None st2 in
    let st4 := tag_rule msg hardware_keywords "hardware" None st3 in
    let st5 := tag_rule msg positive_keywords "positive" None st4 in
    let st6 := tag_rule msg negative_keywords "negative" (Some P_high) st5 in
    let autoTags := fst st6 in
    let this' := snd st6 in
    set_tags (Set_spread (tags this' ++ autoTags)) this'
  else this.

(** The next ObjectId: one that no stored document carries. *)
Definition fresh_id (store : Store) : Z :=
  1 + fold_right Z.max 0 (map _id store).

(** [new Feedback(data)] followed by [save()]: setters, validation, the
    pre-save hook of a new document, timestamps, insertion. A failed
    validation rejects with the validator errors and inserts nothing. *)
Definition save_new (now : Z) (data : FeedbackData) (store : Store)
  : list ValidatorError + (Feedback * Store) :=
  let data' := applySetters data in
  match validateSync data' with
  | [] =>
      let doc := pre_save true (document_of (fresh_id store) now data') in
      inr (doc, store ++ [doc])
  | errs => inl errs
  end.

(* ================================================================== *)
(** * The collection: queries, sorting, projection *)
(* ================================================================== *)

(** A condition on one path: an exact value, [{ $ne: v }] or [{ $gte: v }]. *)
Inductive Cond (A : Type) :=
| Equals (v : A)
| Ne (v : A)
| Gte (v : A).
Arguments Equals {A} v.
Arguments Ne {A} v.
Arguments Gte {A} v.

(** A filter object. Each key of the object is one slot: assigning a key
    again replaces what the slot held. *)
Record Query := mkQuery {
  q_isPublic : option bool;
  q_status : option (Cond string);
  q_priority : option string;
  q_email : option string;
  q_createdAt : option (Cond Z);
  q_rating : option (Cond Z)
}.

Definition empty_query : Query := mkQuery None None None None None None.

Definition with_isPublic (b : bool) (q : Query) : Query :=
  mkQuery (Some b) (q_status q) (q_priority q) (q_email q) (q_createdAt q) (q_rating q).
Definition with_status (c : Cond string) (q : Query) : Query :=
  mkQuery (q_isPublic q) (Some c) (q_priority q) (q_email q) (q_createdAt q) (q_rating q).
Definition with_priority (p : string) (q : Query) : Query :=
  mkQuery (q_isPublic q) (q_status q) (Some p) (q_email q) (q_createdAt q) (q_rating q).
Definition with_email (e : string) (q : Query) : Query :=
  mkQuery (q_isPublic q) (q_status q) (q_priority q) (Some e) (q_createdAt q) (q_rating q).
Definition with_createdAt (c : Cond Z) (q : Query) : Query :=
  mkQuery (q_isPublic q) (q_status q) (q_priority q) (q_email q) (Some c) (q_rating q).
Definition with_rating (c : Cond Z) (q : Query) : Query :=
  mkQuery (q_isPublic q) (q_status q) (q_priority q) (q_email q) (q_createdAt q) (Some c).

Definition holds_string (c : Cond string) (v : string) : bool :=
  match c with
  | Equals x => String.eqb v x
  | Ne x => negb (String.eqb v x)
  | Gte x => match String.compare v x with Lt => false | _ => true end
  end.

Definition holds_Z (c : Cond Z) (v : Z) : bool :=
  match c with
  | Equals x => v =? x
  | Ne x => negb (v =? x)
  | Gte x => x <=? v
  end.

(** A comparison with a number never matches a document without the path. *)
Definition holds_opt_Z (c : Cond Z) (v : option Z) : bool :=
  match v with
  | Some z => holds_Z c z
  | None => match c with Ne _ => true | _ => false end
  end.

Definition on_slot {A : Type} (slot : option A) (test : A -> bool) : bool :=
  match slot with Some a => test a | None => true end.

Definition matches (q : Query) (d : Feedback) : bool :=
  on_slot (q_isPublic q) (fun b => Bool.eqb (isPublic d) b)
  && on_slot (q_status q) (fun c => holds_string c (status_name (status d)))
  && on_slot (q_priority q) (fun p => String.eqb (priority_name (priority d)) p)
  && on_slot (q_email q) (fun e => String.eqb (email d) e)
  && on_slot (q_createdAt q) (fun c => holds_Z c (createdAt d))
  && on_slot (q_rating q) (fun c => holds_opt_Z c (rating d)).

Definition find (q : Query) (store : Store) : list Feedback := filter (matches q) store.

Definition findOne (q : Query) (store : Store) : option Feedback :=
  List.find (matches q) store.

Definition countDocuments (q : Query) (store : Store) : Z :=
  Z.of_nat (List.length (find q store)).

(** [.sort({ createdAt: -1 })]: newest first, by stable insertion. *)
Fixpoint insert_desc (d : Feedback) (l : list Feedback) : list Feedback :=
  match l with
  | [] => [d]
  | x :: t => if createdAt x <=? createdAt d then d :: l else x :: insert_desc d t
  end.

Definition sort_desc (l : list Feedback) : list Feedback :=
  fold_right insert_desc [] l.

(** [.limit(n)]: zero means no limit; a negative number bounds the
    result like its absolute value. *)
Definition limit (n : Z) (l : list Feedback) : list Feedback :=
  if n =? 0 then l else firstn (Z.abs_nat n) l.

(** [.skip(n)]: the store refuses a negative number. *)
Definition skip (n : Z) (l : list Feedback) : option (list Feedback) :=
  if n <? 0 then None else Some (skipn (Z.to_nat n) l).

(** The value held by a path of a document, stored or computed. Three
    strings that a virtual computes are kept as what they render:
    [V_hex z] is the 24 hexadecimal digits of the ObjectId [z];
    [V_formattedDate ms] is
    [toLocaleDateString('en-US', { year: 'numeric', month: 'long',
    day: 'numeric', hour: '2-digit', minute: '2-digit' })] of the date
    [ms], and [V_localeDate ms] is [toLocaleDateString()] of it, both
    of which depend on the time zone and the locale of the server. *)
Inductive Value :=
| V_id (z : Z)
| V_string (s : string)
| V_number (z : Z)
| V_bool (b : bool)
| V_date (ms : Z)
| V_strings (l : list string)
| V_null
| V_hex (z : Z)
| V_formattedDate (ms : Z)
| V_localeDate (ms : Z).

Definition opt_field (key : string) (v : option string) : list (string * Value) :=
  match v with Some s => [(key, V_string s)] | None => [] end.

(** The stored paths of a document, as the collection holds them. *)
Definition paths_of (d : Feedback) : list (string * Value) :=
  [("_id", V_id (_id d)); ("name", V_string (name d)); ("email", V_string (email d))]
  ++ opt_field "contactNumber" (contactNumber d)
  ++ [("message", V_string (message d))]
  ++ match rating d with Some r => [("rating", V_number r)] | None => [] end
  ++ [("status", V_string (status_name (status d)))]
  ++ opt_field "ipAddress" (ipAddress d)
  ++ opt_field "userAgent" (userAgent d)
  ++ [("isPublic", V_bool (isPublic d));
      ("priority", V_string (priority_name (priority d)));
      ("tags", V_strings (tags d));
      ("createdAt", V_date (createdAt d));
      ("updatedAt", V_date (updatedAt d))].

(** [.select(spec)]: the space-separated paths of [spec]; a leading
    minus excludes. When some path is included the result holds the
    included paths, and [_id] unless it is excluded; otherwise it holds
    every path that is not excluded. A listed name that is no stored
    path ([formattedDate] and [timeAgo] are virtuals computed from
    [createdAt]) selects nothing from the collection. *)
Definition excluded_of (tok : string) : option string :=
  match tok with
  | String c rest => if Ascii.eqb c (ascii_of_nat 45) then Some rest else None
  | EmptyString => None
  end.

Definition exclusions (spec : string) : list string :=
  flat_map (fun t => match excluded_of t with Some p => [p] | None => [] end)
    (split (ascii_of_nat 32) spec).

Definition inclusions (spec : string) : list string :=
  filter (fun t => truthy_string t
                   && match excluded_of t with Some _ => false | None => true end)
    (split (ascii_of_nat 32) spec).

Definition mem (k : string) (l : list string) : bool := existsb (String.eqb k) l.

Definition selected (spec : string) (k : string) : bool :=
  let inc := inclusions spec in
  let exc := exclusions spec in
  match inc with
  | [] => negb (mem k exc)
  | _ => (mem k inc || String.eqb k "_id") && negb (mem k exc)
  end.

Definition Item := list (string * Value).

Definition select (spec : string) (d : Feedback) : Item :=
  filter (fun kv => selected spec (fst kv)) (paths_of d).

Definition has_field (k : string) (it : Item) : Prop := In k (map fst it).

(* ================================================================== *)
(** * models/Feedback.js: the statics *)
(* ================================================================== *)

Definition public_query : Query :=
  with_status (Ne "archived") (with_isPublic true empty_query).

(** [feedbackSchema.statics.getPublicFeedback]: the documents of the
    query, each as the stored paths the projection keeps. The virtuals
    named in the projection are no stored paths; they are computed when
    a document is serialised ([toJSON] below). *)
Definition getPublicFeedback (lim : Z) (store : Store) : list Item :=
  map (select "name message createdAt formattedDate timeAgo tags priority")
    (limit lim (sort_desc (find public_query store))).

(** The [$group] stage [{ _id: null, averageRating: { $avg: '$rating' },
    totalRatings: { $sum: 1 } }]: no group on an empty collection, one
    group otherwise; [$avg] divides the sum of the numeric ratings by
    their number and is null when no document has one. *)
Record RatingGroup := mkGroup {
  g_averageRating : option float;
  g_totalRatings : Z
}.

Definition numeric_ratings (store : Store) : list Z :=
  flat_map (fun d => match rating d with Some r => [r] | None => [] end) store.

Definition sum_Z (l : list Z) : Z := fold_right Z.add 0 l.

Definition avg (rs : list Z) : option float :=
  match rs with
  | [] => None
  | _ => Some (Z2F (sum_Z rs) / Z2F (Z.of_nat (List.length rs)))%float
  end.

Definition aggregate_ratings (store : Store) : list RatingGroup :=
  match store with
  | [] => []
  | _ => [mkGroup (avg (numeric_ratings store)) (Z.of_nat (List.length store))]
  end.

Record Stats := mkStats {
  total : Z;
  new : Z;
  read : Z;
  responded : Z;
  highPriority : Z;
  urgent : Z;
  averageRating : float;
  satisfactionPercentage : float;
  highRatingCount : Z
}.

(** [feedbackSchema.statics.getStats]. *)
Definition getStats (store : Store) : Stats :=
  let total := countDocuments empty_query store in
  let newCount := countDocuments (with_status (Equals "new") empty_query) store in
  let read := countDocuments (with_status (Equals "read") empty_query) store in
  let responded := countDocuments (with_status (Equals "responded") empty_query) store in
  let high := countDocuments (with_priority "high" empty_query) store in
  let urgent := countDocuments (with_priority "urgent" empty_query) store in
  let ratingStats := aggregate_ratings store in
  let avgRating :=
    match ratingStats with
    | g :: _ =>
        match g_averageRating g with
        | Some a => if truthy_number a then Number_toFixed1 a else 4.8%float
        | None => 4.8%float
        end
    | [] => 4.8%float
    end in
  let highRatingCount := countDocuments (with_rating (Gte 4) empty_query) store in
  let satisfactionPercentage :=
    if 0 <? total
    then Math_round (Z2F highRatingCount / Z2F total * 100)%float
    else 97%float in
  mkStats total newCount read responded high urgent avgRating
    satisfactionPercentage highRatingCount.

(* ================================================================== *)
(** * routes/feedback.js: the Joi schema *)
(* ================================================================== *)

(** A value of a parsed JSON body; what an array or an object holds is
    never inspected by the rules below. *)
Inductive JSON :=
| J_null
| J_bool (b : bool)
| J_number (z : Z)
| J_string (s : string)
| J_array
| J_object.

(** An object: its keys and values in order. *)
Definition Obj (A : Type) := list (string * A).

Fixpoint lookup {A : Type} (k : string) (o : Obj A) : option A :=
  match o with
  | [] => None
  | (k', v) :: t => if String.eqb k k' then Some v else lookup k t
  end.

Inductive JoiCode :=
| any_required | string_base | string_empty
| string_min | string_max | string_email | object_unknown.

Definition JoiCode_eqb (a b : JoiCode) : bool :=
  match a, b with
  | any_required, any_required | string_base, string_base
  | string_empty, string_empty | string_min, string_min
  | string_max, string_max | string_email, string_email
  | object_unknown, object_unknown => true
  | _, _ => false
  end.

Inductive StringRule := R_min (n : nat) | R_max (n : nat) | R_email.

(** [Joi.string()] with its rules in call order, the [required()] flag
    and the texts given to [messages()]. *)
Record StringSchema := mkSchema {
  s_rules : list StringRule;
  s_required : bool;
  s_messages : list (JoiCode * string)
}.

Record JoiDetail := mkDetail {
  j_key : string;
  j_code : JoiCode;
  j_message : string
}.

Definition decimal (n : nat) : string :=
  DecimalString.NilEmpty.string_of_uint (Nat.to_uint n).

(** Joi's own texts, with the label between double quotes. *)
Definition default_message (key : string) (c : JoiCode) (lim : nat) : string :=
  let label := (dquote ++ key ++ dquote)%string in
  (match c with
   | any_required => label ++ " is required"
   | string_base => label ++ " must be a string"
   | string_empty => label ++ " is not allowed to be empty"
   | string_min =>
       label ++ " length must be at least " ++ decimal lim ++ " characters long"
   | string_max =>
       label ++ " length must be less than or equal to " ++ decimal lim
       ++ " characters long"
   | string_email => label ++ " must be a valid email"
   | object_unknown => label ++ " is not allowed"
   end)%string.

Fixpoint custom_message (c : JoiCode) (ms : list (JoiCode * string)) : option string :=
  match ms with
  | [] => None
  | (c', m) :: t => if JoiCode_eqb c c' then Some m else custom_message c t
  end.

Definition detail (key : string) (sch : StringSchema) (c : JoiCode) (lim : nat)
  : JoiDetail :=
  mkDetail key c
    (match custom_message c (s_messages sch) with
     | Some m => m
     | None => default_message key c lim
     end).

Definition first_only {A : Type} (abortEarly : bool) (l : list A) : list A :=
  if abortEarly then firstn 1 l else l.

Section Joi.

(** Joi hands the address to its address library; its verdict on a
    string is taken as given. *)
Variable isEmailValid : string -> bool.

Definition check_rule (key : string) (sch : StringSchema) (s : string)
    (r : StringRule) : list JoiDetail :=
  match r with
  | R_min n => if Nat.ltb (String.length s) n then [detail key sch string_min n] else []
  | R_max n => if Nat.ltb n (String.length s) then [detail key sch string_max n] else []
  | R_email => if isEmailValid s then [] else [detail key sch string_email 0]
  end.

(** One key of the object: a missing value fails only when required;
    a value that is no string fails the type; the empty string is
    refused; then the rules run in order. *)
Definition validate_key (abortEarly : bool) (key : string) (sch : StringSchema)
    (v : option JSON) : list JoiDetail :=
  match v with
  | None => if s_required sch then [detail key sch any_required 0] else []
  | Some (J_string s) =>
      if truthy_string s
      then first_only abortEarly (flat_map (check_rule key sch s) (s_rules sch))
      else [detail key sch string_empty 0]
  | Some _ => [detail key sch string_base 0]
  end.

(** [Joi.object({...}).validate(body, { abortEarly })]: the keys of the
    schema in declaration order, then the keys of the body that the
    schema does not know. Joi's default is [abortEarly: true]: the
    first error found is the only one reported. *)
Definition validate_with (abortEarly : bool) (keys : Obj StringSchema)
    (body : Obj JSON) : list JoiDetail :=
  first_only abortEarly
    (flat_map (fun ks => validate_key abortEarly (fst ks) (snd ks)
                           (lookup (fst ks) body)) keys
     ++ map (fun k => mkDetail k object_unknown (default_message k object_unknown 0))
          (filter (fun k => negb (mem k (map fst keys))) (map fst body))).

Definition feedbackValidation : Obj StringSchema :=
  [("name", mkSchema [R_min 2; R_max 100] true
      [(string_empty, "Name is required");
       (string_min, "Name must be at least 2 characters long");
       (string_max, "Name cannot exceed 100 characters")]);
   ("email", mkSchema [R_email] true
      [(string_empty, "Email is required");
       (string_email, "Please provide a valid email address")]);
   ("contactNumber", mkSchema [R_min 10; R_max 20] true
      [(string_empty, "Contact number is required");
       (string_min, "Contact number must be at least 10 digits");
       (string_max, "Contact number cannot exceed 20 characters")]);
   ("message", mkSchema [R_min 10; R_max 1000] true
      [(string_empty, "Message is required");
       (string_min, "Message must be at least 10 characters long");
       (string_max, "Message cannot exceed 1000 characters")])].

(** [feedbackValidation.validate(req.body)], no options given. *)
Definition validate (body : Obj JSON) : list JoiDetail :=
  validate_with true feedbackValidation body.

End Joi.

(* ================================================================== *)
(** * routes/feedback.js: the handlers *)
(* ================================================================== *)

Record Pagination := mkPagination {
  currentPage : Z;
  totalPages : float;
  totalItems : Z;
  itemsPerPage : Z;
  hasNextPage : bool;
  hasPrevPage : bool
}.

(** What a handler answers: the status code and the payload that goes
    with it. *)
Inductive Response :=
| ValidationError_400 (msg : string) (details : list string)
| DuplicateSubmission_429
| Created_201 (id : Z) (nm msg : string) (submittedAt : Z) (st : Status)
| ServerError_500
| List_200 (data : list Item) (pagination : Pagination)
| Recent_200 (data : list Item) (count : Z)
| Unauthorized_401
| NotFound_404
| Deleted_200.

Definition statusCode (r : Response) : Z :=
  match r with
  | ValidationError_400 _ _ => 400
  | DuplicateSubmission_429 => 429
  | Created_201 _ _ _ _ _ => 201
  | ServerError_500 => 500
  | List_200 _ _ | Recent_200 _ _ | Deleted_200 => 200
  | Unauthorized_401 => 401
  | NotFound_404 => 404
  end.

Definition get_string (k : string) (o : Obj JSON) : option string :=
  match lookup k o with
  | Some (J_string s) => Some s
  | _ => None
  end.

Definition or_default {A : Type} (d : A) (v : option A) : A :=
  match v with Some a => a | None => d end.

Definition option_string_eqb (a b : option string) : bool :=
  match a, b with
  | Some x, Some y => String.eqb x y
  | None, None => true
  | _, _ => false
  end.

Section Routes.

Variable isEmailValid : string -> bool.

(** The filter of the duplicate check: the lower-cased address and a
    creation time no older than one hour. *)
Definition duplicate_query (now : Z) (address : string) : Query :=
  with_createdAt (Gte (now - 60 * 60 * 1000))
    (with_email (toLowerCase address) empty_query).

(** [{ ...value, ipAddress: req.ip, userAgent: req.get('User-Agent') }].
    The validated value has the four keys of the schema and no other,
    so the spread carries no rating. *)
Definition feedbackData_of (ip agent : option string) (value : Obj JSON)
  : FeedbackData :=
  mkData (get_string "name" value) (get_string "email" value)
    (get_string "contactNumber" value) (get_string "message" value)
    None ip agent.

(** [router.post('/')], after the rate limiter. [ip] is [req.ip] and
    [agent] is [req.get('User-Agent')]. Whatever is thrown on the way
    (reading [toLowerCase] off a missing address, a rejected [save]) is
    answered by 500. *)
Definition submit (now : Z) (ip agent : option string) (body : Obj JSON)
    (store : Store) : Response * Store :=
  match validate isEmailValid body with
  | d :: ds => (ValidationError_400 (j_message d) (map j_message (d :: ds)), store)
  | [] =>
      let value := body in
      match get_string "email" value with
      | None => (ServerError_500, store)
      | Some address =>
          match findOne (duplicate_query now address) store with
          | Some _ => (DuplicateSubmission_429, store)
          | None =>
              match save_new now (feedbackData_of ip agent value) store with
              | inl _ => (ServerError_500, store)
              | inr (feedback, store') =>
                  (Created_201 (_id feedback) (name feedback) (message feedback)
                     (createdAt feedback) (status feedback), store')
              end
          end
      end
  end.

End Routes.

(** The query parameters of the listing, [page] and [limit] already read
    as integers; [None] is a parameter the request does not carry. *)
Record ListParams := mkParams {
  p_page : option Z;
  p_limit : option Z;
  p_status : option string;
  p_priority : option string;
  p_publicOnly : option string
}.

Definition list_query (p : ListParams) : Query :=
  let publicOnly := or_default "true" (p_publicOnly p) in
  let query := empty_query in
  let query :=
    if String.eqb publicOnly "true"
    then with_status (Ne "archived") (with_isPublic true query)
    else query in
  let query :=
    if truthy_string (or_default EmptyString (p_status p))
    then with_status (Equals (or_default EmptyString (p_status p))) query
    else query in
  let query :=
    if truthy_string (or_default EmptyString (p_priority p))
    then with_priority (or_default EmptyString (p_priority p)) query
    else query in
  query.

Definition list_select (p : ListParams) : string :=
  if String.eqb (or_default "true" (p_publicOnly p)) "true"
  then "name message createdAt formattedDate timeAgo tags priority -_id"
  else "-ipAddress -userAgent".

(** [router.get('/')]: the answer with the documents found, each as the
    stored paths its projection keeps; [listing_sent] below gives them
    as they are serialised. *)
Definition listPaged (p : ListParams) (store : Store) : Response :=
  let pageNum := or_default 1 (p_page p) in
  let limitNum := or_default 10 (p_limit p) in
  let skipped := (pageNum - 1) * limitNum in
  let query := list_query p in
  match skip skipped (sort_desc (find query store)) with
  | None => ServerError_500
  | Some rest =>
      let feedbacks := map (select (list_select p)) (limit limitNum rest) in
      let total := countDocuments query store in
      let pages := Math_ceil (Z2F total / Z2F limitNum)%float in
      List_200 feedbacks
        (mkPagination pageNum pages total limitNum
           (Z2F pageNum <? pages)%float (1 <? pageNum))
  end.

(** [router.get('/recent')]: the answer with the documents found, each
    as the stored paths its projection keeps; [recent_sent] below gives
    them as they are serialised. *)
Definition getRecent (lim : option Z) (store : Store) : Response :=
  let feedbacks := getPublicFeedback (or_default 5 lim) store in
  Recent_200 feedbacks (Z.of_nat (List.length feedbacks)).

Fixpoint remove_first (p : Feedback -> bool) (l : list Feedback) : list Feedback :=
  match l with
  | [] => []
  | x :: t => if p x then t else x :: remove_first p t
  end.

(** [Feedback.findByIdAndDelete(id)]: the document removed, if any, and
    the collection afterwards. *)
Definition findByIdAndDelete (i : Z) (store : Store) : option Feedback * Store :=
  match List.find (fun d => _id d =? i) store with
  | Some d => (Some d, remove_first (fun d => _id d =? i) store)
  | None => (None, store)
  end.

(** [router.delete('/:id')]. [ADMIN_KEY] is [process.env.ADMIN_KEY];
    [headers] is [req.headers], from which the property [adminKey] is
    read; [id] is the ObjectId the parameter casts to, [None] when it
    casts to none (the cast error is answered by 500). *)
Definition deleteById (ADMIN_KEY : option string) (headers : Obj string)
    (id : option Z) (store : Store) : Response * Store :=
  let adminKey := lookup "adminKey" headers in
  if negb (option_string_eqb adminKey ADMIN_KEY) then (Unauthorized_401, store)
  else
    match id with
    | None => (ServerError_500, store)
    | Some i =>
        match findByIdAndDelete i store with
        | (Some _, store') => (Deleted_200, store')
        | (None, _) => (NotFound_404, store)
        end
    end.

(* ================================================================== *)
(** * Notions the properties are stated with *)
(* ================================================================== *)

(** The message contains the keyword, letter case ignored: some segment
    of the message spells the keyword up to the case of its letters. *)
Definition contains_ci (msg kw : string) : Prop :=
  exists pre mid post : string,
    msg = (pre ++ mid ++ post)%string /\ toLowerCase mid = toLowerCase kw.

Definition contains_any_ci (msg : string) (kws : list string) : Prop :=
  exists kw, In kw kws /\ contains_ci msg kw.

(** A list of keywords written in lower case, none of them empty. *)
Definition lower_case_list (kws : list string) : Prop :=
  forall kw, In kw kws -> toLowerCase kw = kw /\ truthy_string kw = true.

(** The integer nearest to [num / den] for a positive [den], a half
    going up. *)
Definition round_ratio (num den : Z) : Z := (2 * num + den) / (2 * den).

(** The listing runs in public mode: [publicOnly] is absent or is the
    text true. *)
Definition public_mode (p : ListParams) : Prop :=
  or_default "true" (p_publicOnly p) = "true".

(** The percentage and the average as [getStats] computes them from
    the counts, and where they part from the exact rounding. *)
Definition percentage (high total : Z) : float :=
  Math_round (Z2F high / Z2F total * 100)%float.

Definition one_decimal (sum n : Z) : float :=
  Number_toFixed1 (Z2F sum / Z2F n)%float.

Definition percentage_differs (ht : Z * Z) : bool :=
  negb (percentage (fst ht) (snd ht)
        =? Z2F (round_ratio (100 * fst ht) (snd ht)))%float.

Definition one_decimal_differs (sn : Z * Z) : bool :=
  negb (one_decimal (fst sn) (snd sn)
        =? Z2F (round_ratio (10 * fst sn) (snd sn)) / 10)%float.

(** The pairs [(k, n)] with [1 <= n <= max] and [lo n <= k <= hi n]. *)
Definition pairs (max : nat) (lo hi : nat -> nat) : list (Z * Z) :=
  flat_map (fun n => map (fun k => (Z.of_nat k, Z.of_nat n))
                       (seq (lo n) (S (hi n) - lo n)))
    (seq 1 max).

(** An item without one of its keys. *)
Definition without (k : string) (it : Item) : Item :=
  filter (fun kv => negb (String.eqb (fst kv) k)) it.

(** A verdict for the address library, for the closed examples that need
    one: it accepts what the pattern of the schema accepts. The examples
    use it on addresses about which Joi agrees. *)
Definition sample_address_check : string -> bool := email_pattern.

(* ================================================================== *)
(** * Sample documents and requests *)
(* ================================================================== *)

(** A document with a given message and priority; the other paths hold
    what a fresh submission would give them. *)
Definition sample_doc (msg : string) (p : Priority) : Feedback :=
  mkFeedback 1 "Maria Santos" "maria@example.com" (Some "09171234567") msg
    (Some 5) S_new None None true p [] 1700000000000 1700000000000.

Definition praise_with_bug : Feedback :=
  sample_doc "Found a BUG in the chart but I love the alerts" P_medium.

Definition urgent_bug : Feedback :=
  sample_doc "There is an error when I open the map" P_urgent.

(** A collection holding one document per rating of the list, with
    identifiers 1, 2, ... in order. *)
Definition rated (ir : nat * Z) : Feedback :=
  mkFeedback (Z.of_nat (fst ir)) "Maria Santos" "maria@example.com"
    (Some "09171234567") "The hive monitor works well" (Some (snd ir)) S_new
    None None true P_medium []
    (1700000000000 + Z.of_nat (fst ir)) (1700000000000 + Z.of_nat (fst ir)).

Definition with_ratings (rs : list Z) : Store :=
  map rated (combine (seq 1 (List.length rs)) rs).

(** Forty documents: twenty-three rated 5 and seventeen rated 1. *)
Definition store_23_of_40 : Store :=
  with_ratings (repeat 5 23 ++ repeat 1 17).

(** A well-formed submission. *)
Definition good_body : Obj JSON :=
  [("name", J_string "Maria Santos");
   ("email", J_string "Maria.Santos@Example.com");
   ("contactNumber", J_string "09171234567");
   ("message", J_string "The hive monitor works well")].

(** The same submission without a contact number. *)
Definition body_without_contact : Obj JSON :=
  [("name", J_string "Maria Santos");
   ("email", J_string "Maria.Santos@Example.com");
   ("message", J_string "The hive monitor works well")].

(** A submission that breaks the rule of every field. *)
Definition bad_body : Obj JSON :=
  [("name", J_string "A");
   ("email", J_string "not-an-address");
   ("contactNumber", J_string "123");
   ("message", J_string "short")].

(** The time of the sample requests. *)
Definition sample_now : Z := 1700000600000.

(** A document stored ten minutes before [sample_now] for the address
    of [good_body]. *)
Definition earlier_doc : Feedback :=
  mkFeedback 1 "Maria Santos" "maria.santos@example.com" (Some "09171234567")
    "Thanks for the quick setup guide" (Some 5) S_new None None true P_medium []
    1700000000000 1700000000000.

(** A public document that has been archived. *)
Definition archived_doc : Feedback :=
  mkFeedback 7 "Jun Reyes" "jun@example.com" (Some "09181234567")
    "Old note kept for the record" (Some 4) S_archived
    (Some "203.0.113.9") (Some "Mozilla/5.0") true P_low []
    1690000000000 1690000000000.

(** [GET /api/feedback?status=archived]: [publicOnly] keeps its default. *)
Definition archived_params : ListParams :=
  mkParams None None (Some "archived") None None.

(** [publicOnly=true], page 1, a given page size and no other filter. *)
Definition first_page (lim : Z) : ListParams :=
  mkParams (Some 1) (Some lim) None None (Some "true").

(** An urgent document whose message matches no bug keyword and no
    negative keyword. *)
Definition urgent_praise : Feedback :=
  sample_doc "The new dashboard is awesome" P_urgent.

(** A submission that Joi accepts and the schema refuses: the name has
    five characters, one of them left after trimming. *)
Definition padded_name_body : Obj JSON :=
  [("name", J_string "  a  ");
   ("email", J_string "Maria.Santos@Example.com");
   ("contactNumber", J_string "09171234567");
   ("message", J_string "The hive monitor works well")].

(** Fifteen public documents. *)
Definition fifteen_docs : Store := with_ratings (repeat 5 15).

(* ================================================================== *)
(** * models/Feedback.js: the virtuals, and documents as they are sent *)
(* ================================================================== *)

(** [Math.floor] on the exact value of the double. *)
Definition Math_floor (x : float) : float :=
  match Prim2SF x with
  | S754_finite s m e =>
      let n := cond_Zopp s (Zpos m) in
      Z2F (if 0 <=? e then n * 2 ^ e else n / 2 ^ (- e))
  | _ => x
  end.

(** What a template literal prints for a Number with an integral value
    of magnitude below 1e21: its decimal digits. *)
Definition Number_toString (x : float) : string :=
  match Prim2SF x with
  | S754_finite s m e =>
      let n := if 0 <=? e then Zpos m * 2 ^ e else Zpos m / 2 ^ (- e) in
      ((if s then "-" else "") ++ decimal (Z.to_nat n))%string
  | S754_zero _ => "0"
  | S754_infinity s => if s then "-Infinity" else "Infinity"
  | S754_nan => "NaN"
  end.

(** [diffMins === 1 ? '' : 's']. *)
Definition plural (n : float) : string :=
  if (n =? 1)%float then EmptyString else "s".

(** [feedbackSchema.virtual('timeAgo')]; [now] is the [new Date()] of
    the getter. *)
Definition timeAgo (now createdAt : Z) : Value :=
  let diffMs := (Z2F now - Z2F createdAt)%float in
  let diffMins := Math_floor (diffMs / 60000)%float in
  let diffHours := Math_floor (diffMins / 60)%float in
  let diffDays := Math_floor (diffHours / 24)%float in
  if (diffMins <? 1)%float then V_string "Just now"
  else if (diffMins <? 60)%float
  then V_string (Number_toString diffMins ++ " minute" ++ plural diffMins ++ " ago")
  else if (diffHours <? 24)%float
  then V_string (Number_toString diffHours ++ " hour" ++ plural diffHours ++ " ago")
  else if (diffDays <? 7)%float
  then V_string (Number_toString diffDays ++ " day" ++ plural diffDays ++ " ago")
  else V_localeDate createdAt.

(** [feedbackSchema.virtual('formattedDate')]. *)
Definition formattedDate (createdAt : Z) : Value := V_formattedDate createdAt.

(** The virtual [id] that every schema has: the identifier as a string,
    null on a document loaded without [_id]. *)
Definition id_virtual (it : Item) : Value :=
  match lookup "_id" it with
  | Some (V_id i) => V_hex i
  | _ => V_null
  end.

(** Hydration of a query result: a path whose default the schema
    declares, which the projection [spec] keeps and which the stored
    document lacks, gets the default. Of the paths with a default only
    [rating] can be missing from a document of [Store]. *)
Definition hydrate (spec : string) (it : Item) : Item :=
  if selected spec "rating" && negb (mem "rating" (map fst it))
  then it ++ [("rating", V_number 5)]
  else it.

(** [toJSON] of a hydrated document under the schema option
    [toJSON: { virtuals: true }]: its paths and the three virtuals.
    The two getters of this schema read [this.createdAt]; on a document
    loaded without it they throw, which is [None]. [now] is the time
    the getter of [timeAgo] reads; one instant is taken for all the
    documents of an answer. The paths are those [Store] keeps for a
    document: the version key [__v] that Mongoose adds to a document it
    saves is not among them. *)
Definition toJSON (now : Z) (it : Item) : option Item :=
  match lookup "createdAt" it with
  | Some (V_date ms) =>
      Some (it ++ [("formattedDate", formattedDate ms);
                   ("timeAgo", timeAgo now ms);
                   ("id", id_virtual it)])
  | _ => None
  end.

Fixpoint toJSON_all (now : Z) (spec : string) (data : list Item)
    : option (list Item) :=
  match data with
  | [] => Some []
  | it :: rest =>
      match toJSON now (hydrate spec it), toJSON_all now spec rest with
      | Some j, Some js => Some (j :: js)
      | _, _ => None
      end
  end.

(** [res.json] of a listing, at time [now]: the documents that a
    handler found with the projection [spec], as they are sent. An
    error thrown while serialising is caught by the handler and
    answered 500. *)
Definition res_json (now : Z) (spec : string) (r : Response) : Response :=
  match r with
  | List_200 data pg =>
      match toJSON_all now spec data with
      | Some js => List_200 js pg
      | None => ServerError_500
      end
  | Recent_200 data count =>
      match toJSON_all now spec data with
      | Some js => Recent_200 js count
      | None => ServerError_500
      end
  | _ => r
  end.

(** What [router.get('/recent')] sends. *)
Definition recent_sent (now : Z) (lim : option Z) (store : Store) : Response :=
  res_json now "name message createdAt formattedDate timeAgo tags priority"
    (getRecent lim store).

(** What [router.get('/')] sends. *)
Definition listing_sent (now : Z) (p : ListParams) (store : Store) : Response :=
  res_json now (list_select p) (listPaged p store).

(* ================================================================== *)
(** * routes/feedback.js: one feedback by its identifier *)
(* ================================================================== *)

(** What [router.get('/:id')] answers. *)
Inductive OneResponse :=
| Found_200 (data : Item)
| Missing_404
| Failed_500.

(** [Feedback.findById(id)]. *)
Definition findById (i : Z) (store : Store) : option Feedback :=
  List.find (fun d => _id d =? i) store.

(** [router.get('/:id')], at time [now]. [id] is the ObjectId the
    parameter casts to, [None] when it casts to none (the cast error is
    answered by 500). A document that is not public, or that is
    archived, is answered like one that does not exist; the document
    found is sent as [res.json] serialises it. *)
Definition getById (now : Z) (id : option Z) (store : Store) : OneResponse :=
  match id with
  | None => Failed_500
  | Some i =>
      match findById i store with
      | None => Missing_404
      | Some feedback =>
          if negb (isPublic feedback)
             || String.eqb (status_name (status feedback)) "archived"
          then Missing_404
          else
            match toJSON now (hydrate "-ipAddress -userAgent"
                                (select "-ipAddress -userAgent" feedback)) with
            | Some data => Found_200 data
            | None => Failed_500
            end
      end
  end.

(** The items a listing answers with. *)
Definition items_of (r : Response) : list Item :=
  match r with
  | List_200 data _ => data
  | Recent_200 data _ => data
  | _ => []
  end.

(** The parameters of page [page] of size [lim] beside the filters of
    [p]. *)
Definition at_page (page lim : Z) (p : ListParams) : ListParams :=
  mkParams (Some page) (Some lim) (p_status p) (p_priority p) (p_publicOnly p).

(* ================================================================== *)
(** * scripts/migrate-ratings.js *)
(* ================================================================== *)

(** [{ rating: { $exists: false } }]. *)
Definition lacks_rating (d : Feedback) : bool :=
  match rating d with Some _ => false | None => true end.

(** [{ $set: { rating: r } }] on one document; the timestamps option of
    the schema makes the update set [updatedAt] as well. *)
Definition set_rating (now r : Z) (d : Feedback) : Feedback :=
  mkFeedback (_id d) (name d) (email d) (contactNumber d) (message d) (Some r)
    (status d) (ipAddress d) (userAgent d) (isPublic d) (priority d) (tags d)
    (createdAt d) now.

(** [Feedback.updateMany(filter, update)]: the number of documents
    modified and the collection afterwards. The update of this script
    sets a path that every matched document lacks, so every matched
    document is modified. *)
Definition updateMany (cond : Feedback -> bool) (update : Feedback -> Feedback)
    (store : Store) : Z * Store :=
  (Z.of_nat (List.length (filter cond store)),
   map (fun d => if cond d then update d else d) store).

Record Migration := mkMigration {
  feedbackWithoutRating : Z;
  modifiedCount : Z;
  migrated : Store;
  stats : Stats
}.

(** [migrateRatings], between connecting and closing: count the
    documents without a rating, give them the rating 5 when there are
    any, and read the statistics back. *)
Definition migrateRatings (now : Z) (store : Store) : Migration :=
  let without := Z.of_nat (List.length (List.filter lacks_rating store)) in
  let result :=
    if 0 <? without
    then updateMany lacks_rating (set_rating now 5) store
    else (0, store) in
  mkMigration without (fst result) (snd result) (getStats (snd result)).

(* ================================================================== *)
(** * Notions for the further properties *)
(* ================================================================== *)

(** The six rules of the hook: the keywords and the tag of each. *)
Definition auto_rules : list (list string * string) :=
  [(bug_keywords, "bug-report");
   (feature_keywords, "feature-request");
   (mobile_keywords, "mobile-app");
   (hardware_keywords, "hardware");
   (positive_keywords, "positive");
   (negative_keywords, "negative")].

(** The tags the hook pushes for a lower-cased message, in order. *)
Definition autoTags_of (msg : string) : list string :=
  flat_map (fun r => if existsb (includes msg) (fst r) then [snd r] else [])
    auto_rules.

(** The string does not start with white space. *)
Definition no_leading_space (s : string) : Prop :=
  match s with
  | EmptyString => True
  | String c _ => isWhiteSpace c = false
  end.

(** Newest first. *)
Definition newest_first (l : list Feedback) : Prop :=
  StronglySorted (fun a b => createdAt b <= createdAt a) l.

(** The documents a listing request matches, newest first. *)
Definition matching (p : ListParams) (store : Store) : list Feedback :=
  sort_desc (find (list_query p) store).

(** What the schema promises of a stored document. *)
Definition schema_valid (d : Feedback) : Prop :=
  (2 <= String.length (name d) <= 100)%nat
  /\ trim (name d) = name d
  /\ email_pattern (email d) = true
  /\ toLowerCase (email d) = email d
  /\ trim (email d) = email d
  /\ (10 <= String.length (message d) <= 1000)%nat
  /\ trim (message d) = message d
  /\ (forall c, contactNumber d = Some c ->
                (10 <= String.length c <= 20)%nat /\ trim c = c)
  /\ (forall r, rating d = Some r -> 1 <= r <= 5).

(** What the operations keep true of the collection: identifiers are
    not shared and every document is as the schema wants it. *)
Definition store_ok (store : Store) : Prop :=
  NoDup (map _id store) /\ Forall schema_valid store.

(** A document stored before the schema had a rating. *)
Definition legacy_doc : Feedback :=
  mkFeedback 3 "Ana Cruz" "ana@example.com" None
    "Stored before ratings were added" None S_read None None true P_medium []
    1680000000000 1680000000000.

(** A collection with a document of before the ratings and an archived
    one. *)
Definition mixed_store : Store := [legacy_doc; archived_doc].

(** The sample submission with a rating beside the four fields. *)
Definition body_with_rating : Obj JSON :=
  good_body ++ [("rating", J_number 5)].


(** A key for the deletion, configured and sent. *)
Definition sample_key : string := "local-admin-key".

(** Where the page count and the next-page flag of a listing, computed
    on doubles from the page, the number of matching documents and the
    page size, part from the count [ceil (total / size)] and the
    comparison [page * size < total] on integers. *)
Definition page_info_differs (page : Z) (ts : Z * Z) : bool :=
  let pages := Math_ceil (Z2F (fst ts) / Z2F (snd ts))%float in
  negb ((pages =? Z2F ((fst ts + snd ts - 1) / snd ts))%float
        && Bool.eqb (Z2F page <? pages)%float (page * snd ts <? fst ts)).

(** [req.headers] as Node hands it to a handler: every header name is
    in lower case, whatever the case the client sent it in. *)
Definition lower_cased_names (headers : Obj string) : Prop :=
  Forall (fun kv => toLowerCase (fst kv) = fst kv) headers.

(** The rating a document is sent with when its projection keeps the
    path. *)
Definition rating_or_default (d : Feedback) : Z :=
  match rating d with Some r => r | None => 5 end.

(** The headers of a request that sends [adminKey: local-admin-key]. *)
Definition headers_with_key : Obj string :=
  [("host", "buzzguard-backend.onrender.com"); ("adminkey", sample_key)].

(** The item [it] is the document [d] as the recent listing sends it at
    time [now]: identifier, name, message, priority, tags, creation
    time and the three virtuals, and none of the paths of the contact
    or of the request. *)
Definition sent_as_recent (now : Z) (d : Feedback) (it : Item) : Prop :=
  (lookup "_id" it = Some (V_id (_id d))
   /\ lookup "name" it = Some (V_string (name d))
   /\ lookup "message" it = Some (V_string (message d))
   /\ lookup "priority" it = Some (V_string (priority_name (priority d)))
   /\ lookup "tags" it = Some (V_strings (tags d))
   /\ lookup "createdAt" it = Some (V_date (createdAt d)))
  /\ (lookup "formattedDate" it = Some (V_formattedDate (createdAt d))
      /\ lookup "timeAgo" it = Some (timeAgo now (createdAt d))
      /\ lookup "id" it = Some (V_hex (_id d)))
  /\ (lookup "email" it = None /\ lookup "contactNumber" it = None
      /\ lookup "ipAddress" it = None /\ lookup "userAgent" it = None).

(** The item [it] is the document [d] as a projection that excludes
    only the IP address and the user agent sends it at time [now]:
    every other path, the rating 5 where the document stores none, and
    the three virtuals. *)
Definition sent_in_full (now : Z) (d : Feedback) (it : Item) : Prop :=
  (lookup "_id" it = Some (V_id (_id d))
   /\ lookup "name" it = Some (V_string (name d))
   /\ lookup "email" it = Some (V_string (email d))
   /\ lookup "contactNumber" it = option_map V_string (contactNumber d)
   /\ lookup "message" it = Some (V_string (message d))
   /\ lookup "rating" it = Some (V_number (rating_or_default d)))
  /\ (lookup "status" it = Some (V_string (status_name (status d)))
      /\ lookup "isPublic" it = Some (V_bool (isPublic d))
      /\ lookup "priority" it = Some (V_string (priority_name (priority d)))
      /\ lookup "tags" it = Some (V_strings (tags d))
      /\ lookup "createdAt" it = Some (V_date (createdAt d))
      /\ lookup "updatedAt" it = Some (V_date (updatedAt d)))
  /\ (lookup "formattedDate" it = Some (V_formattedDate (createdAt d))
      /\ lookup "timeAgo" it = Some (timeAgo now (createdAt d))
      /\ lookup "id" it = Some (V_hex (_id d)))
  /\ (lookup "ipAddress" it = None /\ lookup "userAgent" it = None).
(* ================================================================== *)
(** * Properties of strings *)
(* ================================================================== *)

(** The functions on a few inputs. *)
Example toLowerCase_example : toLowerCase "BuG Report #7" = "bug report #7".
Proof. reflexivity. Qed.

Example trim_example :
  trim (String (ascii_of_nat 9) "  hello  world  ") = "hello  world".
Proof. reflexivity. Qed.

Example includes_examples :
  includes "there is a bug here" "bug" = true
  /\ includes "there is a bu g here" "bug" = false
  /\ includes "debugger" "bug" = true
  /\ includes "" "" = true.
Proof. repeat split. Qed.

Example split_example : split "." "a.b..c" = ["a"; "b"; ""; "c"].
Proof. reflexivity. Qed.

Example email_pattern_examples :
  email_pattern "maria.santos@example.com" = true
  /\ email_pattern "m-s_1@mail.example.co" = true
  /\ email_pattern "a+b@example.com" = false
  /\ email_pattern "user@example.museum" = false
  /\ email_pattern "user@localhost" = false
  /\ email_pattern "user@@example.com" = false
  /\ email_pattern "@example.com" = false.
Proof. repeat split. Qed.

Lemma toLowerCase_app (a b : string) :
  toLowerCase (a ++ b) = (toLowerCase a ++ toLowerCase b)%string.
Proof.
  induction a as [|c a IH]; simpl; [reflexivity | now rewrite IH].
Qed.

Lemma startsWith_app (n post : string) : startsWith (n ++ post) n = true.
Proof.
  induction n as [|c n IH]; simpl; [reflexivity|].
  now rewrite Ascii.eqb_refl, IH.
Qed.

Lemma startsWith_inv (n s : string) :
  startsWith s n = true -> exists post, s = (n ++ post)%string.
Proof.
  revert s; induction n as [|c n IH]; intros s H.
  - now exists s.
  - destruct s as [|b s]; simpl in H; [discriminate|].
    apply andb_true_iff in H as [Hc Hs].
    apply Ascii.eqb_eq in Hc; subst b.
    destruct (IH s Hs) as [post ->]. now exists post.
Qed.

Lemma includes_startsWith (s n : string) :
  startsWith s n = true -> includes s n = true.
Proof.
  intros H. destruct s; cbn [includes]; now rewrite H.
Qed.

Lemma includes_app (pre n post : string) :
  includes (pre ++ n ++ post) n = true.
Proof.
  induction pre as [|c pre IH].
  - cbn [append]. apply includes_startsWith, startsWith_app.
  - cbn [append includes]. rewrite IH. apply orb_true_r.
Qed.

Lemma includes_inv (s n : string) :
  includes s n = true -> exists pre post, s = (pre ++ n ++ post)%string.
Proof.
  induction s as [|c s IH]; intros H.
  - simpl in H. rewrite orb_false_r in H.
    destruct (startsWith_inv _ _ H) as [post E]. now exists EmptyString, post.
  - cbn [includes] in H. apply orb_true_iff in H as [H|H].
    + destruct (startsWith_inv _ _ H) as [post E]. now exists EmptyString, post.
    + destruct (IH H) as (pre & post & ->). now exists (String c pre), post.
Qed.

Lemma toLowerCase_split (s a b : string) :
  toLowerCase s = (a ++ b)%string ->
  exists a' b', s = (a' ++ b')%string /\ toLowerCase a' = a /\ toLowerCase b' = b.
Proof.
  revert s; induction a as [|c a IH]; intros s H.
  - exists EmptyString, s. now simpl in *.
  - destruct s as [|x s]; simpl in H; [discriminate|].
    injection H as Hc Hs. destruct (IH s Hs) as (a' & b' & -> & <- & <-).
    exists (String x a'), b'. simpl. now rewrite Hc.
Qed.

(** Containment up to case is what the hook tests: [includes] on the
    lower-cased message, for a keyword written in lower case. *)
Lemma contains_ci_includes (msg kw : string) :
  toLowerCase kw = kw ->
  (contains_ci msg kw <-> includes (toLowerCase msg) kw = true).
Proof.
  intros Hkw; split.
  - intros (pre & mid & post & -> & Hmid).
    rewrite !toLowerCase_app, Hmid, Hkw. apply includes_app.
  - intros H. destruct (includes_inv _ _ H) as (pre & post & E).
    destruct (toLowerCase_split _ _ _ E) as (pre' & rest & -> & _ & Hrest).
    destruct (toLowerCase_split _ _ _ Hrest) as (mid & post' & -> & Hmid & _).
    exists pre', mid, post'. split; [reflexivity | now rewrite Hmid, Hkw].
Qed.

Lemma isWhiteSpace_lower (c : ascii) :
  isWhiteSpace (toLowerCase_char c) = isWhiteSpace c.
Proof.
  destruct c as [[] [] [] [] [] [] [] []]; reflexivity.
Qed.

Lemma trimStart_lower (s : string) :
  trimStart (toLowerCase s) = toLowerCase (trimStart s).
Proof.
  induction s as [|c s IH]; simpl; [reflexivity|].
  rewrite isWhiteSpace_lower. now destruct (isWhiteSpace c).
Qed.

Lemma trimEnd_lower (s : string) :
  trimEnd (toLowerCase s) = toLowerCase (trimEnd s).
Proof.
  induction s as [|c s IH]; simpl; [reflexivity|].
  rewrite IH, isWhiteSpace_lower.
  destruct (trimEnd s); simpl; [now destruct (isWhiteSpace c) | reflexivity].
Qed.

(** The two setters of [email] commute. *)
Lemma trim_toLowerCase (s : string) :
  trim (toLowerCase s) = toLowerCase (trim s).
Proof.
  unfold trim. now rewrite trimStart_lower, trimEnd_lower.
Qed.

(* ================================================================== *)
(** * The pre-save hook *)
(* ================================================================== *)

Lemma Set_add_In (acc : list string) (x y : string) :
  In y (Set_add acc x) <-> In y acc \/ y = x.
Proof.
  unfold Set_add. destruct (existsb (String.eqb x) acc) eqn:E.
  - split; [now left|]. intros [H | ->]; [exact H|].
    apply existsb_exists in E as (z & Hz & Hxz).
    apply String.eqb_eq in Hxz. now subst z.
  - rewrite in_app_iff. simpl. intuition.
Qed.

Lemma fold_Set_add_In (xs acc : list string) (y : string) :
  In y (fold_left Set_add xs acc) <-> In y acc \/ In y xs.
Proof.
  revert acc; induction xs as [|x xs IH]; intros acc; simpl.
  - intuition.
  - rewrite IH, Set_add_In. intuition.
Qed.

Lemma Set_spread_In (xs : list string) (y : string) :
  In y (Set_spread xs) <-> In y xs.
Proof.
  unfold Set_spread. rewrite fold_Set_add_In. simpl. intuition.
Qed.

Section TagRule.

Variables (msg : string) (kws : list string) (tag : string).
Variable st : list string * Feedback.

Lemma tag_rule_keeps (a : option Priority) (t : string) :
  In t (fst st) -> In t (fst (tag_rule msg kws tag a st)).
Proof.
  unfold tag_rule. destruct (existsb _ kws); simpl; [|trivial].
  intros H. apply in_app_iff. now left.
Qed.

Lemma tag_rule_hit (a : option Priority) :
  existsb (includes msg) kws = true -> In tag (fst (tag_rule msg kws tag a st)).
Proof.
  unfold tag_rule. intros ->. simpl. apply in_app_iff. right. now left.
Qed.

Lemma tag_rule_tags (a : option Priority) :
  tags (snd (tag_rule msg kws tag a st)) = tags (snd st).
Proof.
  unfold tag_rule. destruct (existsb _ kws); [|reflexivity].
  now destruct a.
Qed.

Lemma tag_rule_priority_kept :
  priority (snd (tag_rule msg kws tag None st)) = priority (snd st).
Proof.
  unfold tag_rule. now destruct (existsb _ kws).
Qed.

Lemma tag_rule_priority_assigned (p : Priority) :
  priority (snd (tag_rule msg kws tag (Some p) st))
  = if existsb (includes msg) kws then p else priority (snd st).
Proof.
  unfold tag_rule. now destruct (existsb _ kws).
Qed.

End TagRule.

Lemma keywords_lower_case :
  lower_case_list bug_keywords /\ lower_case_list positive_keywords
  /\ lower_case_list negative_keywords.
Proof.
  repeat split; simpl in H; intuition; subst; reflexivity.
Qed.

(** What the hook tests for one rule is containment up to case of one
    of its keywords. *)
Lemma contains_any_existsb (msg : string) (kws : list string) :
  lower_case_list kws ->
  (contains_any_ci msg kws <-> existsb (includes (toLowerCase msg)) kws = true).
Proof.
  intros Hl. rewrite existsb_exists. split.
  - intros (kw & Hin & Hc). exists kw. split; [exact Hin|].
    now apply contains_ci_includes; [apply Hl|].
  - intros (kw & Hin & Hc). exists kw. split; [exact Hin|].
    now apply contains_ci_includes; [apply Hl|].
Qed.

Lemma contains_any_truthy (msg : string) (kws : list string) :
  lower_case_list kws -> contains_any_ci msg kws -> truthy_string msg = true.
Proof.
  intros Hl (kw & Hin & pre & mid & post & -> & Hmid).
  destruct (Hl kw Hin) as [Hlow Hne]. rewrite Hlow in Hmid.
  destruct mid as [|c mid]; [simpl in Hmid; subst kw; discriminate|].
  destruct pre; reflexivity.
Qed.

(** The priority the hook leaves on a new document with a message. *)
Lemma pre_save_priority (this : Feedback) :
  truthy_string (message this) = true ->
  priority (pre_save true this)
  = if existsb (includes (toLowerCase (message this))) bug_keywords
       || existsb (includes (toLowerCase (message this))) negative_keywords
    then P_high else priority this.
Proof.
  intros Hm. unfold pre_save. rewrite Hm. cbn [andb]. cbv zeta.
  unfold set_tags at 1. cbn [priority].
  rewrite tag_rule_priority_assigned, !tag_rule_priority_kept,
    tag_rule_priority_assigned. cbn [snd].
  now destruct (existsb _ negative_keywords), (existsb _ bug_keywords).
Qed.

(** A rule that fires leaves its tag on the saved document. *)
Lemma pre_save_tag (this : Feedback) (t : string) :
  truthy_string (message this) = true ->
  In t (fst (tag_rule (toLowerCase (message this)) negative_keywords "negative"
          (Some P_high)
       (tag_rule (toLowerCase (message this)) positive_keywords "positive" None
       (tag_rule (toLowerCase (message this)) hardware_keywords "hardware" None
       (tag_rule (toLowerCase (message this)) mobile_keywords "mobile-app" None
       (tag_rule (toLowerCase (message this)) feature_keywords "feature-request" None
       (tag_rule (toLowerCase (message this)) bug_keywords "bug-report"
          (Some P_high) ([], this)))))))) ->
  In t (tags (pre_save true this)).
Proof.
  intros Hm Ht. unfold pre_save. rewrite Hm. cbn [andb]. cbv zeta.
  unfold set_tags at 1. cbn [tags].
  apply Set_spread_In, in_app_iff. now right.
Qed.

Lemma hook_on_bug_keyword (this : Feedback) :
  contains_any_ci (message this) bug_keywords ->
  In "bug-report" (tags (pre_save true this))
  /\ priority (pre_save true this) = P_high.
Proof.
  intros Hbug.
  destruct keywords_lower_case as (Lb & _ & _).
  pose proof (contains_any_truthy _ _ Lb Hbug) as Hm.
  apply (contains_any_existsb _ _ Lb) in Hbug.
  split.
  - apply pre_save_tag; [exact Hm|].
    do 5 apply tag_rule_keeps. now apply tag_rule_hit.
  - rewrite pre_save_priority by exact Hm. now rewrite Hbug.
Qed.

Lemma hook_on_positive_keyword (this : Feedback) :
  contains_any_ci (message this) positive_keywords ->
  In "positive" (tags (pre_save true this)).
Proof.
  intros Hpos.
  destruct keywords_lower_case as (_ & Lp & _).
  pose proof (contains_any_truthy _ _ Lp Hpos) as Hm.
  apply (contains_any_existsb _ _ Lp) in Hpos.
  apply pre_save_tag; [exact Hm|].
  apply tag_rule_keeps. now apply tag_rule_hit.
Qed.

(** C3. A new document whose message contains bug, error or issue, in
    any letter case, leaves the hook tagged bug-report with priority
    high; the rules are tested one after the other, so a message that
    also contains great, awesome or love carries the tag positive as
    well. *)
Theorem auto_tag_bug_report (this : Feedback) :
  contains_any_ci (message this) bug_keywords ->
  In "bug-report" (tags (pre_save true this))
  /\ priority (pre_save true this) = P_high
  /\ (contains_any_ci (message this) positive_keywords ->
      In "positive" (tags (pre_save true this))).
Proof.
  intros Hbug. destruct (hook_on_bug_keyword this Hbug) as [Ht Hp].
  split; [exact Ht|]. split; [exact Hp|]. apply hook_on_positive_keyword.
Qed.

(** The sample message has BUG in capitals and the word love. *)
Lemma praise_with_bug_contains :
  contains_any_ci (message praise_with_bug) bug_keywords
  /\ contains_any_ci (message praise_with_bug) positive_keywords.
Proof.
  split.
  - exists "bug". split; [now left|].
    now exists "Found a ", "BUG", " in the chart but I love the alerts".
  - exists "love". split; [simpl; tauto|].
    now exists "Found a BUG in the chart but I ", "love", " the alerts".
Defined.

(** C3 on the sample message. *)
Lemma auto_tag_bug_report_witness :
  contains_any_ci (message praise_with_bug) bug_keywords
  /\ In "bug-report" (tags (pre_save true praise_with_bug))
  /\ priority (pre_save true praise_with_bug) = P_high
  /\ In "positive" (tags (pre_save true praise_with_bug)).
Proof.
  destruct praise_with_bug_contains as [Hb Hp].
  destruct (auto_tag_bug_report praise_with_bug Hb) as (Ht & Hh & Hpos).
  split; [exact Hb|]. split; [exact Ht|]. split; [exact Hh | exact (Hpos Hp)].
Defined.

(** C6, as the code has it. A new document whose message contains a
    bug keyword or a negative keyword leaves the hook with priority
    high, whatever its priority was: the assignment is unconditional. *)
Theorem auto_tag_assigns_high (this : Feedback) :
  contains_any_ci (message this) bug_keywords
  \/ contains_any_ci (message this) negative_keywords ->
  priority (pre_save true this) = P_high.
Proof.
  destruct keywords_lower_case as (Lb & _ & Ln).
  intros [H | H].
  - rewrite pre_save_priority by exact (contains_any_truthy _ _ Lb H).
    apply (contains_any_existsb _ _ Lb) in H. now rewrite H.
  - rewrite pre_save_priority by exact (contains_any_truthy _ _ Ln H).
    apply (contains_any_existsb _ _ Ln) in H. rewrite H. now rewrite orb_true_r.
Qed.

Lemma urgent_bug_contains : contains_any_ci (message urgent_bug) bug_keywords.
Proof.
  exists "error". split; [simpl; tauto|].
  now exists "There is an ", "error", " when I open the map".
Defined.

(** C6, as the code has it, on an urgent document that reports an
    error. *)
Lemma auto_tag_assigns_high_witness :
  priority urgent_bug = P_urgent /\ priority (pre_save true urgent_bug) = P_high.
Proof.
  split; [reflexivity|].
  exact (auto_tag_assigns_high urgent_bug (or_introl urgent_bug_contains)).
Defined.

(** C6, as the claim states it, fails on this document: it is urgent,
    its message contains a bug keyword, and the hook leaves it high. *)
Lemma urgent_is_downgraded :
  priority urgent_bug = P_urgent
  /\ contains_any_ci (message urgent_bug) bug_keywords
  /\ priority (pre_save true urgent_bug) = P_high
  /\ P_high <> P_urgent.
Proof.
  split; [reflexivity|]. split; [exact urgent_bug_contains|].
  split; [reflexivity | discriminate].
Qed.

(** Without a bug keyword and without a negative keyword the hook
    leaves the priority alone. *)
Lemma auto_tag_keeps_priority (this : Feedback) :
  ~ contains_any_ci (message this) bug_keywords ->
  ~ contains_any_ci (message this) negative_keywords ->
  priority (pre_save true this) = priority this.
Proof.
  destruct keywords_lower_case as (Lb & _ & Ln).
  intros Hb Hn.
  destruct (truthy_string (message this)) eqn:Hm.
  - rewrite pre_save_priority by exact Hm.
    rewrite (contains_any_existsb _ _ Lb) in Hb.
    rewrite (contains_any_existsb _ _ Ln) in Hn.
    apply not_true_is_false in Hb, Hn. now rewrite Hb, Hn.
  - unfold pre_save. now rewrite Hm.
Qed.

(* ================================================================== *)
(** * Rounding *)
(* ================================================================== *)

Example Math_round_examples :
  Math_round 2.5 = 3%float /\ Math_round 2.4 = 2%float
  /\ Math_round (-2.5) = (-2)%float /\ Math_round 57.499999999999993 = 57%float
  /\ Math_round 60 = 60%float.
Proof. vm_compute. repeat split. Qed.

Example Number_toFixed1_examples :
  Number_toFixed1 3.8 = 3.8%float /\ Number_toFixed1 4.25 = 4.3%float
  /\ Number_toFixed1 4.35 = 4.3%float /\ Number_toFixed1 4.96 = 5%float
  /\ Number_toFixed1 (-1.26) = (-1.3)%float.
Proof. vm_compute. repeat split. Qed.

Example Math_ceil_examples :
  Math_ceil 0.1 = 1%float /\ Math_ceil 1.5 = 2%float /\ Math_ceil 2 = 2%float
  /\ Math_ceil (-1.5) = (-1)%float /\ Math_ceil infinity = infinity.
Proof. vm_compute. repeat split. Qed.

(** [half_up m e] is the floor of [m * 2^e + 1/2]: for a negative
    exponent, [r <= m / 2^(-e) + 1/2 < r + 1], with the denominators
    cleared. *)
Lemma half_up_floor (m e : Z) :
  e < 0 ->
  2 * half_up m e * 2 ^ (- e) <= 2 * m + 2 ^ (- e)
  < 2 * (half_up m e + 1) * 2 ^ (- e).
Proof.
  intros He. unfold half_up.
  destruct (Z.leb_spec 0 e) as [H|_]; [lia|].
  assert (Hp : 0 < 2 ^ (- e)) by (apply Z.pow_pos_nonneg; lia).
  replace (1 - e) with (Z.succ (- e)) by lia.
  rewrite Z.pow_succ_r by lia.
  pose proof (Z.mul_div_le (2 * m + 2 ^ (- e)) (2 * 2 ^ (- e)) ltac:(lia)).
  pose proof (Z.mul_succ_div_gt (2 * m + 2 ^ (- e)) (2 * 2 ^ (- e)) ltac:(lia)).
  lia.
Qed.

Lemma half_up_integer (m e : Z) : 0 <= e -> half_up m e = m * 2 ^ e.
Proof.
  intros He. unfold half_up. now destruct (Z.leb_spec 0 e); [|lia].
Qed.

(** [round_ratio] is the floor of [num / den + 1/2]. *)
Lemma round_ratio_floor (num den : Z) :
  0 < den ->
  2 * den * round_ratio num den <= 2 * num + den
  < 2 * den * (round_ratio num den + 1).
Proof.
  intros Hd. unfold round_ratio.
  pose proof (Z.mul_div_le (2 * num + den) (2 * den) ltac:(lia)).
  pose proof (Z.mul_succ_div_gt (2 * num + den) (2 * den) ltac:(lia)).
  lia.
Qed.

(* ================================================================== *)
(** * getStats *)
(* ================================================================== *)

(** On an empty collection both fallbacks apply. *)
Lemma getStats_empty :
  total (getStats []) = 0
  /\ averageRating (getStats []) = 4.8%float
  /\ satisfactionPercentage (getStats []) = 97%float.
Proof.
  repeat split.
Qed.

(** [total] counts every document, so the fallback of the percentage is
    taken on the empty collection only. *)
Lemma getStats_total (store : Store) :
  total (getStats store) = Z.of_nat (List.length store).
Proof.
  unfold getStats, countDocuments, find. cbn [total]. f_equal.
  induction store as [|d store IH]; [reflexivity|].
  cbn. now rewrite IH.
Qed.

(** [highRatingCount] counts the documents rated 4 or more. *)
Lemma getStats_highRatingCount (store : Store) :
  highRatingCount (getStats store)
  = Z.of_nat (List.length
                (filter (fun d => match rating d with
                                  | Some r => 4 <=? r
                                  | None => false
                                  end) store)).
Proof.
  unfold getStats, countDocuments, find. cbn [highRatingCount].
  reflexivity.
Qed.

(** The five ratings 5, 5, 4, 3, 2 of the specification. *)
Lemma getStats_five_ratings :
  let s := getStats (with_ratings [5; 5; 4; 3; 2]) in
  total s = 5 /\ highRatingCount s = 3
  /\ satisfactionPercentage s = 60%float
  /\ averageRating s = 3.8%float.
Proof.
  vm_compute. repeat split.
Qed.

(** What [getStats] returns, in terms of the counts. *)
Lemma getStats_percentage (store : Store) :
  satisfactionPercentage (getStats store)
  = if 0 <? total (getStats store)
    then percentage (highRatingCount (getStats store)) (total (getStats store))
    else 97%float.
Proof.
  reflexivity.
Qed.

(** Up to a hundred documents, the percentage parts from the exact
    rounding for two pairs of counts only, both an exact 57.5. *)
Lemma percentage_differs_up_to_100 :
  filter percentage_differs (pairs 100 (fun _ => 0%nat) (fun n => n))
  = [(23, 40); (46, 80)].
Proof.
  vm_compute. reflexivity.
Qed.

(** Up to twenty documents with ratings from 1 to 5, the average parts
    from the exact rounding only for twenty documents and these sums:
    means of the form x.x5 whose nearest double lies below them. *)
Lemma one_decimal_differs_up_to_20 :
  filter one_decimal_differs (pairs 20 (fun n => n) (fun n => (5 * n)%nat))
  = map (fun s => (s, 20))
      [23; 29; 33; 39; 41; 43; 51; 53; 61; 63; 71; 73; 81; 87; 91; 97].
Proof.
  vm_compute. reflexivity.
Qed.

(** The same happens to the average: ratings that sum to 87 over 20
    documents have the mean 4.35; the double nearest to it lies below,
    and [toFixed(1)] prints 4.3. *)
Lemma getStats_average_half_rounds_down :
  let s := getStats (with_ratings (repeat 5 13 ++ [4] ++ repeat 3 6)) in
  total s = 20 /\ round_ratio (10 * 87) 20 = 44
  /\ averageRating s = 4.3%float.
Proof.
  vm_compute. repeat split.
Qed.

(** C1 at a collection where the percentage is a half: 23 documents out
    of 40 are rated 4 or more, so 100 * 23 / 40 is 57.5 and rounds to
    58; the code divides first, the double nearest to 0.575 times 100
    is the double just below 57.5, and [Math.round] gives 57. *)
Theorem getStats_half_rounds_down :
  total (getStats store_23_of_40) = 40
  /\ highRatingCount (getStats store_23_of_40) = 23
  /\ round_ratio (100 * 23) 40 = 58
  /\ (Z2F 23 / Z2F 40 * 100)%float = 57.499999999999993%float
  /\ satisfactionPercentage (getStats store_23_of_40) = 57%float.
Proof.
  vm_compute. repeat split.
Qed.

(* ================================================================== *)
(** * Joi validation *)
(* ================================================================== *)

Lemma first_only_nil {A : Type} (b : bool) (l : list A) :
  first_only b l = [] -> l = [].
Proof.
  destruct b, l; simpl; congruence.
Qed.

Lemma first_only_true_length {A : Type} (l : list A) :
  (List.length (first_only true l) <= 1)%nat.
Proof.
  destruct l as [|a [|b l]]; simpl; lia.
Qed.

Lemma flat_map_nil {A B : Type} (f : A -> list B) (l : list A) :
  flat_map f l = [] -> forall a, In a l -> f a = [].
Proof.
  induction l as [|x l IH]; simpl; [contradiction|].
  intros H a [-> | Ha]; apply app_eq_nil in H as [H1 H2]; auto.
Qed.

Section JoiFacts.

Variable isEmailValid : string -> bool.

(** With the default options at most one violation is reported. *)
Lemma validate_at_most_one (body : Obj JSON) :
  (List.length (validate isEmailValid body) <= 1)%nat.
Proof.
  apply first_only_true_length.
Qed.

(** A required key that validates holds a non-empty string that passes
    every rule of its schema. *)
Lemma validate_key_ok (ab : bool) (key : string) (sch : StringSchema)
    (v : option JSON) :
  s_required sch = true ->
  validate_key isEmailValid ab key sch v = [] ->
  exists s, v = Some (J_string s) /\ truthy_string s = true
            /\ forall r, In r (s_rules sch) ->
                         check_rule isEmailValid key sch s r = [].
Proof.
  intros Hreq H. unfold validate_key in H.
  destruct v as [[| | |s| |]|]; try discriminate.
  - destruct (truthy_string s) eqn:Hs; [|discriminate].
    exists s. repeat split; trivial.
    apply first_only_nil in H. now apply flat_map_nil.
  - now rewrite Hreq in H.
Qed.

(** What a body that validates looks like: the four fields are strings
    within their bounds, the address library accepts the address, and
    the body has no other key. *)
Lemma validate_ok (body : Obj JSON) :
  validate isEmailValid body = [] ->
  (exists n e c m,
      get_string "name" body = Some n /\ get_string "email" body = Some e
      /\ get_string "contactNumber" body = Some c
      /\ get_string "message" body = Some m
      /\ (2 <= String.length n <= 100)%nat /\ isEmailValid e = true
      /\ (10 <= String.length c <= 20)%nat
      /\ (10 <= String.length m <= 1000)%nat)
  /\ forall k, In k (map fst body) ->
               mem k ["name"; "email"; "contactNumber"; "message"] = true.
Proof.
  unfold validate, validate_with. intros H.
  apply first_only_nil, app_eq_nil in H as [Hkeys Hunknown].
  pose proof (flat_map_nil _ _ Hkeys) as Hk. split.
  - assert (Hget : forall key sch,
               In (key, sch) feedbackValidation -> s_required sch = true ->
               exists s, get_string key body = Some s
                         /\ forall r, In r (s_rules sch) ->
                                      check_rule isEmailValid key sch s r = []).
    { intros key sch Hin Hreq. specialize (Hk _ Hin). cbn [fst snd] in Hk.
      destruct (validate_key_ok _ _ _ _ Hreq Hk) as (s & E & _ & Hr).
      exists s. unfold get_string. now rewrite E. }
    destruct (Hget "name" _ (or_introl eq_refl) eq_refl) as (n & En & Rn).
    destruct (Hget "email" _ (or_intror (or_introl eq_refl)) eq_refl)
      as (e & Ee & Re).
    destruct (Hget "contactNumber" _
                (or_intror (or_intror (or_introl eq_refl))) eq_refl)
      as (c & Ec & Rc).
    destruct (Hget "message" _
                (or_intror (or_intror (or_intror (or_introl eq_refl)))) eq_refl)
      as (m & Em & Rm).
    exists n, e, c, m. repeat (split; [assumption|]).
    cbn [s_rules] in Rn, Re, Rc, Rm.
    pose proof (Rn _ (or_introl eq_refl)) as Rn1.
    pose proof (Rn _ (or_intror (or_introl eq_refl))) as Rn2.
    pose proof (Re _ (or_introl eq_refl)) as Re1.
    pose proof (Rc _ (or_introl eq_refl)) as Rc1.
    pose proof (Rc _ (or_intror (or_introl eq_refl))) as Rc2.
    pose proof (Rm _ (or_introl eq_refl)) as Rm1.
    pose proof (Rm _ (or_intror (or_introl eq_refl))) as Rm2.
    unfold check_rule in *.
    destruct (Nat.ltb_spec (String.length n) 2); [discriminate|].
    destruct (Nat.ltb_spec 100 (String.length n)); [discriminate|].
    destruct (Nat.ltb_spec (String.length c) 10); [discriminate|].
    destruct (Nat.ltb_spec 20 (String.length c)); [discriminate|].
    destruct (Nat.ltb_spec (String.length m) 10); [discriminate|].
    destruct (Nat.ltb_spec 1000 (String.length m)); [discriminate|].
    destruct (isEmailValid e); [|discriminate].
    repeat split; lia.
  - intros k Hin. apply map_eq_nil in Hunknown.
    destruct (mem k ["name"; "email"; "contactNumber"; "message"]) eqn:E;
      [reflexivity|].
    assert (Hf : In k (filter
                (fun k => negb (mem k (map fst feedbackValidation)))
                (map fst body))).
    { apply filter_In. split; [exact Hin|]. cbn [map fst feedbackValidation].
      now rewrite E. }
    rewrite Hunknown in Hf. contradiction.
Qed.

End JoiFacts.

(* ================================================================== *)
(** * Submission *)
(* ================================================================== *)

(** The hook touches [priority] and [tags] only. *)
Lemma tag_rule_frame {A : Type} (f : Feedback -> A) :
  (forall p d, f (set_priority p d) = f d) ->
  forall msg kws tag a st, f (snd (tag_rule msg kws tag a st)) = f (snd st).
Proof.
  intros Hp msg kws tag a st. unfold tag_rule.
  destruct (existsb _ kws); [|reflexivity]. destruct a; simpl; auto.
Qed.

Lemma pre_save_frame {A : Type} (f : Feedback -> A) :
  (forall p d, f (set_priority p d) = f d) ->
  (forall ts d, f (set_tags ts d) = f d) ->
  forall b d, f (pre_save b d) = f d.
Proof.
  intros Hp Ht b d. unfold pre_save.
  destruct (b && truthy_string (message d)); [|reflexivity].
  cbv zeta. rewrite Ht. now rewrite !(tag_rule_frame f Hp).
Qed.

(** What [save] stores is what the hook returns: a stored document
    whose message contains a bug keyword is tagged and has priority
    high. *)
Corollary stored_bug_report (now : Z) (data : FeedbackData) (store store' : Store)
    (doc : Feedback) :
  save_new now data store = inr (doc, store') ->
  contains_any_ci (message doc) bug_keywords ->
  In doc store' /\ In "bug-report" (tags doc) /\ priority doc = P_high.
Proof.
  unfold save_new. destruct (validateSync _); [|discriminate].
  intros [= <- <-] Hbug.
  rewrite (pre_save_frame message) in Hbug by reflexivity.
  destruct (hook_on_bug_keyword _ Hbug) as (Ht & Hp).
  split; [apply in_app_iff; right; now left | now split].
Qed.

Lemma duplicate_query_matches (now : Z) (address : string) (d : Feedback) :
  matches (duplicate_query now address) d
  = String.eqb (email d) (toLowerCase address)
    && (now - 60 * 60 * 1000 <=? createdAt d).
Proof.
  unfold matches, duplicate_query. cbn. now rewrite andb_true_r.
Qed.

Section SubmitFacts.

Variable isEmailValid : string -> bool.

(** A rejected validation answers 400 and leaves the collection alone. *)
Lemma submit_invalid (now : Z) (ip agent : option string) (body : Obj JSON)
    (store : Store) :
  validate isEmailValid body <> [] ->
  statusCode (fst (submit isEmailValid now ip agent body store)) = 400
  /\ snd (submit isEmailValid now ip agent body store) = store.
Proof.
  intros H. unfold submit. destruct (validate isEmailValid body); [congruence|].
  now split.
Qed.

(** A duplicate found after a successful validation answers 429. *)
Lemma submit_duplicate (now : Z) (ip agent : option string) (body : Obj JSON)
    (store : Store) (address : string) :
  validate isEmailValid body = [] ->
  get_string "email" body = Some address ->
  (exists dup, In dup store /\ email dup = toLowerCase address
               /\ now - 60 * 60 * 1000 <= createdAt dup) ->
  submit isEmailValid now ip agent body store = (DuplicateSubmission_429, store).
Proof.
  intros Hv He (dup & Hin & Hmail & Htime).
  unfold submit. rewrite Hv, He. cbv zeta.
  destruct (findOne _ store) eqn:F; [reflexivity|].
  unfold findOne in F. apply (find_none _ _ F) in Hin.
  rewrite duplicate_query_matches, Hmail, String.eqb_refl in Hin.
  apply Z.leb_le in Htime. rewrite Htime in Hin. discriminate.
Qed.


(** A submission that passes both validations and meets no duplicate
    is stored: the answer is 201 and the collection grows by the
    document the hook returns. *)
Lemma submit_created (now : Z) (ip agent : option string) (body : Obj JSON)
    (store : Store) (address : string) :
  validate isEmailValid body = [] ->
  get_string "email" body = Some address ->
  findOne (duplicate_query now address) store = None ->
  validateSync (applySetters (feedbackData_of ip agent body)) = [] ->
  let doc := pre_save true (document_of (fresh_id store) now
                              (applySetters (feedbackData_of ip agent body))) in
  submit isEmailValid now ip agent body store
  = (Created_201 (_id doc) (name doc) (message doc) (createdAt doc) (status doc),
     store ++ [doc]).
Proof.
  intros Hv He Hf Hs. unfold submit, save_new.
  rewrite Hv, He. cbv zeta. now rewrite Hf, Hs.
Qed.



End SubmitFacts.

Lemma good_body_validates : validate sample_address_check good_body = [].
Proof.
  reflexivity.
Defined.




(** What the stored document of the sample submission holds. *)
Lemma good_body_stored :
  snd (submit sample_address_check sample_now (Some "198.51.100.4") None
         good_body [])
  = [mkFeedback 1 "Maria Santos" "maria.santos@example.com"
       (Some "09171234567") "The hive monitor works well" (Some 5) S_new
       (Some "198.51.100.4") None true P_medium [] sample_now sample_now].
Proof.
  reflexivity.
Qed.

(** Every error of a String path carries the name of the path. *)
Lemma validate_String_path (path : string) (required : option string)
    (minlength maxlength : option (nat * string)) (pattern : option string)
    (v : option string) (e : ValidatorError) :
  In e (validate_String path required minlength maxlength pattern v) ->
  v_path e = path.
Proof.
  unfold validate_String. intros H.
  repeat (apply in_app_iff in H as [H|H]);
    repeat match type of H with
           | In _ (match ?x with _ => _ end) => destruct x
           | In _ (if ?x then _ else _) => destruct x
           | In _ (_ ++ _) => apply in_app_iff in H as [H|H]
           end;
    simpl in H; try contradiction; destruct H as [<-|[]]; reflexivity.
Qed.

(** The schema itself has nothing against a missing contact number. *)
Lemma schema_accepts_missing_contact (data : FeedbackData) (e : ValidatorError) :
  d_contactNumber data = None -> In e (validateSync data) ->
  v_path e <> "contactNumber".
Proof.
  intros Hc H. unfold validateSync in H. rewrite Hc in H.
  rewrite !in_app_iff in H. destruct H as [H|[H|[H|[H|H]]]].
  - apply validate_String_path in H. now rewrite H.
  - apply validate_String_path in H. now rewrite H.
  - cbn in H. contradiction.
  - apply validate_String_path in H. now rewrite H.
  - unfold validate_rating in H. apply in_app_iff in H as [H|H].
    + destruct (_ <? 1); simpl in H;
        [destruct H as [<-|[]]; discriminate | contradiction].
    + destruct (5 <? _); simpl in H;
        [destruct H as [<-|[]]; discriminate | contradiction].
Qed.

Section ContactNumber.

Variable isEmailValid : string -> bool.

(** C5, as the code has it. The route requires the contact number: a
    body without the key fails validation, is answered 400 and stores
    nothing; a body that validates carries a contact number of 10 to
    20 characters. Only the schema of the model lets the path be
    absent: none of its validators reports it. *)
Theorem contact_number_required (now : Z) (ip agent : option string)
    (body : Obj JSON) (store : Store) :
  (lookup "contactNumber" body = None ->
   statusCode (fst (submit isEmailValid now ip agent body store)) = 400
   /\ snd (submit isEmailValid now ip agent body store) = store)
  /\ (validate isEmailValid body = [] ->
      exists c, get_string "contactNumber" body = Some c
                /\ (10 <= String.length c <= 20)%nat)
  /\ (forall data e, d_contactNumber data = None -> In e (validateSync data) ->
                     v_path e <> "contactNumber").
Proof.
  split; [|split].
  - intros Hc. apply submit_invalid. intros Hv.
    destruct (validate_ok _ _ Hv) as [(n & e & c & m & _ & _ & Ec & _) _].
    unfold get_string in Ec. now rewrite Hc in Ec.
  - intros Hv.
    destruct (validate_ok _ _ Hv)
      as [(n & e & c & m & _ & _ & Ec & _ & _ & _ & Hlen & _) _].
    now exists c.
  - exact schema_accepts_missing_contact.
Qed.

End ContactNumber.

(** C5, as the code has it, on the sample submission with and without
    its contact number. *)
Lemma contact_number_required_witness :
  (statusCode (fst (submit sample_address_check sample_now None None
                      body_without_contact [])) = 400
   /\ snd (submit sample_address_check sample_now None None
             body_without_contact []) = [])
  /\ exists c, get_string "contactNumber" good_body = Some c
               /\ (10 <= String.length c <= 20)%nat.
Proof.
  split.
  - exact (proj1 (contact_number_required sample_address_check sample_now
                    None None body_without_contact []) eq_refl).
  - exact (proj1 (proj2 (contact_number_required sample_address_check sample_now
                           None None good_body [])) good_body_validates).
Defined.

(** C5, as the claim states it, fails on this body: name, address and
    message are those of [good_body], which validates, the contact
    number is left out, and the answer is 400 with nothing stored. *)
Lemma missing_contact_number_rejected :
  validate sample_address_check good_body = []
  /\ lookup "contactNumber" body_without_contact = None
  /\ submit sample_address_check sample_now None None body_without_contact []
     = (ValidationError_400
          (dquote ++ "contactNumber" ++ dquote ++ " is required")%string
          [(dquote ++ "contactNumber" ++ dquote ++ " is required")%string],
        []).
Proof.
  repeat split.
Qed.

(** Joi accepts a name of five characters; the schema trims it to one
    and refuses it, [save] rejects and the answer is 500. *)
Example schema_rejects_padded_name :
  validate sample_address_check padded_name_body = []
  /\ submit sample_address_check sample_now None None padded_name_body []
     = (ServerError_500, []).
Proof.
  split; reflexivity.
Qed.

(** C4 at a body that breaks the rule of every field: the answer
    carries the violation of the first field alone, as its message and
    as its only detail; validation with [abortEarly: false] would
    report the four of them. *)
Theorem only_first_violation_reported :
  submit sample_address_check sample_now None None bad_body []
  = (ValidationError_400 "Name must be at least 2 characters long"
       ["Name must be at least 2 characters long"], [])
  /\ map j_message (validate_with sample_address_check false feedbackValidation
                      bad_body)
     = ["Name must be at least 2 characters long";
        "Please provide a valid email address";
        "Contact number must be at least 10 digits";
        "Message must be at least 10 characters long"].
Proof.
  split; reflexivity.
Qed.

(* ================================================================== *)
(** * Listings *)
(* ================================================================== *)

Lemma select_has_field (spec k : string) (d : Feedback) :
  has_field k (select spec d) -> selected spec k = true.
Proof.
  unfold has_field, select. intros H.
  apply in_map_iff in H as ((k' & v) & <- & Hin).
  now apply filter_In in Hin as [_ Hs].
Qed.

Lemma limit_incl (n : Z) (l : list Feedback) (d : Feedback) :
  In d (limit n l) -> In d l.
Proof.
  unfold limit. destruct (n =? 0); [trivial|]. intros H.
  rewrite <- (firstn_skipn (Z.abs_nat n) l). apply in_app_iff. now left.
Qed.

Lemma skip_incl (n : Z) (l rest : list Feedback) (d : Feedback) :
  skip n l = Some rest -> In d rest -> In d l.
Proof.
  unfold skip. destruct (n <? 0); [discriminate|]. intros [= <-] H.
  rewrite <- (firstn_skipn (Z.to_nat n) l). apply in_app_iff. now right.
Qed.

Lemma insert_desc_In (d x : Feedback) (l : list Feedback) :
  In x (insert_desc d l) <-> x = d \/ In x l.
Proof.
  induction l as [|y l IH]; simpl.
  - intuition.
  - destruct (createdAt y <=? createdAt d); simpl; rewrite ?IH; intuition.
Qed.

Lemma sort_desc_In (x : Feedback) (l : list Feedback) :
  In x (sort_desc l) <-> In x l.
Proof.
  induction l as [|d l IH]; simpl; [tauto|].
  rewrite insert_desc_In, IH. intuition.
Qed.

(** Every item of a listing is the selection of a stored document that
    matches the query the handler built. *)
Lemma listPaged_items (p : ListParams) (store : Store) (data : list Item)
    (pg : Pagination) (it : Item) :
  listPaged p store = List_200 data pg -> In it data ->
  exists d, In d store /\ matches (list_query p) d = true
            /\ it = select (list_select p) d.
Proof.
  unfold listPaged. destruct (skip _ _) as [rest|] eqn:S; [|discriminate].
  intros [= <- _] Hin. apply in_map_iff in Hin as (d & <- & Hd).
  apply limit_incl in Hd. apply (skip_incl _ _ _ _ S) in Hd.
  apply (proj1 (sort_desc_In _ _)) in Hd. apply filter_In in Hd as [Hs Hm].
  now exists d.
Qed.

(** In public mode no item of a listing carries the identifier, the
    address, the IP address or the user agent, whatever the other
    parameters are. *)
Lemma public_listing_hides_fields (p : ListParams) (store : Store)
    (data : list Item) (pg : Pagination) (it : Item) :
  public_mode p -> listPaged p store = List_200 data pg -> In it data ->
  ~ has_field "_id" it /\ ~ has_field "email" it
  /\ ~ has_field "ipAddress" it /\ ~ has_field "userAgent" it.
Proof.
  intros Hp Hl Hin.
  destruct (listPaged_items _ _ _ _ _ Hl Hin) as (d & _ & _ & ->).
  unfold list_select. unfold public_mode in Hp. rewrite Hp. cbn [String.eqb].
  repeat split; intros H; apply select_has_field in H; discriminate H.
Qed.

Lemma matches_public_slots (q : Query) (d : Feedback) :
  q_isPublic q = Some true -> q_status q = Some (Ne "archived") ->
  matches q d = true -> isPublic d = true /\ status d <> S_archived.
Proof.
  unfold matches. intros -> -> H. cbn [on_slot holds_string] in H.
  do 4 (apply andb_true_iff in H as [H _]).
  apply andb_true_iff in H as [Hi Hs]. split.
  - now destruct (isPublic d).
  - intros E. rewrite E in Hs. discriminate.
Qed.

(** In public mode, when the request names no status, every item comes
    from a public document that is not archived. *)
Lemma public_listing_without_status (p : ListParams) (store : Store)
    (data : list Item) (pg : Pagination) (it : Item) :
  public_mode p -> truthy_string (or_default EmptyString (p_status p)) = false ->
  listPaged p store = List_200 data pg -> In it data ->
  exists d, In d store /\ it = select (list_select p) d
            /\ isPublic d = true /\ status d <> S_archived.
Proof.
  intros Hp Hs Hl Hin.
  destruct (listPaged_items _ _ _ _ _ Hl Hin) as (d & Hd & Hm & ->).
  exists d. split; [exact Hd|]. split; [reflexivity|].
  apply (matches_public_slots (list_query p)); [| |exact Hm];
    unfold list_query; unfold public_mode in Hp; rewrite Hp, Hs;
    cbn [String.eqb]; cbv zeta;
    now destruct (truthy_string (or_default EmptyString (p_priority p))).
Qed.

(** C7 at a request that names the status archived: the assignment of
    the status parameter replaces the condition that kept archived
    documents out, and the public listing returns the archived
    document. *)
Theorem public_listing_returns_archived :
  isPublic archived_doc = true
  /\ status archived_doc = S_archived
  /\ list_query archived_params
     = with_status (Equals "archived") (with_isPublic true empty_query)
  /\ listPaged archived_params [archived_doc]
     = List_200
         [[("name", V_string "Jun Reyes");
           ("message", V_string "Old note kept for the record");
           ("priority", V_string "low");
           ("tags", V_strings []);
           ("createdAt", V_date 1690000000000)]]
         (mkPagination 1 1%float 1 10 false false).
Proof.
  vm_compute. repeat split.
Qed.

Lemma filter_filter {A : Type} (f g : A -> bool) (l : list A) :
  filter f (filter g l) = filter (fun x => g x && f x) l.
Proof.
  induction l as [|x l IH]; simpl; [reflexivity|].
  destruct (g x); simpl; [destruct (f x)|]; now rewrite IH.
Qed.

(** The selection of the public listing is the selection of
    [getPublicFeedback] without the identifier. *)
Lemma public_select_without_id (d : Feedback) :
  select "name message createdAt formattedDate timeAgo tags priority -_id" d
  = without "_id"
      (select "name message createdAt formattedDate timeAgo tags priority" d).
Proof.
  unfold without, select. rewrite filter_filter. apply filter_ext.
  intros [k v]. cbn [fst]. unfold selected.
  change (inclusions
            "name message createdAt formattedDate timeAgo tags priority -_id")
    with ["name"; "message"; "createdAt"; "formattedDate"; "timeAgo"; "tags";
          "priority"].
  change (inclusions "name message createdAt formattedDate timeAgo tags priority")
    with ["name"; "message"; "createdAt"; "formattedDate"; "timeAgo"; "tags";
          "priority"].
  change (exclusions
            "name message createdAt formattedDate timeAgo tags priority -_id")
    with ["_id"].
  change (exclusions "name message createdAt formattedDate timeAgo tags priority")
    with (@nil string).
  cbn [mem existsb].
  repeat match goal with
         | |- context [String.eqb ?a ?b] => destruct (String.eqb a b)
         end; reflexivity.
Qed.

Lemma recent_select_has_id (d : Feedback) :
  has_field "_id"
    (select "name message createdAt formattedDate timeAgo tags priority" d).
Proof.
  unfold has_field, select, paths_of. cbn. now left.
Qed.

(** The documents found: the recent listing holds the documents of the
    first page of the public listing of the same size, in the same
    order; the stored paths kept for each are those of the page and the
    identifier. *)
Lemma recent_is_first_page_with_id (lim : Z) (store : Store) :
  exists items pg,
    getRecent (Some lim) store = Recent_200 items (Z.of_nat (List.length items))
    /\ listPaged (first_page lim) store = List_200 (map (without "_id") items) pg
    /\ Forall (has_field "_id") items.
Proof.
  exists (getPublicFeedback lim store). eexists. split; [reflexivity|]. split.
  - unfold listPaged, first_page, getPublicFeedback. cbn [p_page p_limit or_default].
    change (list_query (mkParams (Some 1) (Some lim) None None (Some "true")))
      with public_query.
    change (list_select (mkParams (Some 1) (Some lim) None None (Some "true")))
      with "name message createdAt formattedDate timeAgo tags priority -_id".
    replace ((1 - 1) * lim) with 0 by lia.
    unfold skip. cbn [Z.ltb Z.compare Z.to_nat skipn].
    f_equal. rewrite map_map. apply map_ext.
    intros d. apply public_select_without_id.
  - unfold getPublicFeedback. apply Forall_forall. intros it Hin.
    apply in_map_iff in Hin as (d & <- & _). apply recent_select_has_id.
Qed.

Lemma toJSON_all_map (now : Z) (spec : string) (f g : Feedback -> Item)
    (docs : list Feedback) :
  (forall d, toJSON now (hydrate spec (f d)) = Some (g d)) ->
  toJSON_all now spec (map f docs) = Some (map g docs).
Proof.
  intros H. induction docs as [|d docs IH]; [reflexivity|].
  cbn [map toJSON_all]. now rewrite H, IH.
Qed.

(** A document of the recent listing as it is sent. *)
Lemma recent_sent_item (now : Z) (d : Feedback) :
  toJSON now
    (hydrate "name message createdAt formattedDate timeAgo tags priority"
       (select "name message createdAt formattedDate timeAgo tags priority" d))
  = Some [("_id", V_id (_id d));
          ("name", V_string (name d));
          ("message", V_string (message d));
          ("priority", V_string (priority_name (priority d)));
          ("tags", V_strings (tags d));
          ("createdAt", V_date (createdAt d));
          ("formattedDate", V_formattedDate (createdAt d));
          ("timeAgo", timeAgo now (createdAt d));
          ("id", V_hex (_id d))].
Proof.
  destruct d as [i n e [c|] m [r|] s [ip|] [ua|] pub pr ts ca ua'];
    reflexivity.
Qed.

(** A document of the public listing as it is sent. *)
Lemma listing_sent_item (now : Z) (d : Feedback) :
  toJSON now
    (hydrate "name message createdAt formattedDate timeAgo tags priority -_id"
       (without "_id"
          (select "name message createdAt formattedDate timeAgo tags priority" d)))
  = Some [("name", V_string (name d));
          ("message", V_string (message d));
          ("priority", V_string (priority_name (priority d)));
          ("tags", V_strings (tags d));
          ("createdAt", V_date (createdAt d));
          ("formattedDate", V_formattedDate (createdAt d));
          ("timeAgo", timeAgo now (createdAt d));
          ("id", V_null)].
Proof.
  destruct d as [i n e [c|] m [r|] s [ip|] [ua|] pub pr ts ca ua'];
    reflexivity.
Qed.

(** C8, as the code has it. What the recent listing sends and what the
    first page of the public listing of the same size sends come from
    the same documents in the same order and agree on every key but
    two: an item of the recent listing carries the identifier, as
    [_id] and as the string [id]; the item of the page has no [_id]
    and its [id] is null. *)
Theorem recent_sent_is_first_page_but_ids (now lim : Z) (store : Store) :
  exists recent listed pg,
    recent_sent now (Some lim) store
    = Recent_200 recent (Z.of_nat (List.length recent))
    /\ listing_sent now (first_page lim) store = List_200 listed pg
    /\ map (without "id") listed
       = map (fun it => without "id" (without "_id" it)) recent
    /\ Forall (fun it => exists i, lookup "_id" it = Some (V_id i)
                                   /\ lookup "id" it = Some (V_hex i)) recent
    /\ Forall (fun it => lookup "_id" it = None
                         /\ lookup "id" it = Some V_null) listed.
Proof.
  destruct (recent_is_first_page_with_id lim store) as (items & pg & Hr & Hl & _).
  unfold getRecent in Hr. cbn [or_default] in Hr. injection Hr as Hi _.
  subst items. unfold getPublicFeedback in Hl.
  set (docs := limit lim (sort_desc (find public_query store))) in *.
  pose proof (toJSON_all_map now _ _ _ docs (recent_sent_item now)) as Jr.
  pose proof (toJSON_all_map now _ _ _ docs (listing_sent_item now)) as Jl.
  match type of Jr with _ = Some ?r => exists r end.
  match type of Jl with _ = Some ?l => exists l end.
  exists pg.
  split; [|split; [|split; [|split]]].
  - unfold recent_sent, getRecent, res_json. cbn [or_default].
    unfold getPublicFeedback. fold docs.
    rewrite Jr, !length_map. reflexivity.
  - unfold listing_sent. rewrite Hl. unfold res_json.
    change (list_select (first_page lim))
      with "name message createdAt formattedDate timeAgo tags priority -_id".
    rewrite map_map, Jl. reflexivity.
  - rewrite !map_map. apply map_ext. intros d. reflexivity.
  - apply Forall_forall. intros it Hin. apply in_map_iff in Hin as (d & <- & _).
    exists (_id d). now split.
  - apply Forall_forall. intros it Hin. apply in_map_iff in Hin as (d & <- & _).
    now split.
Qed.

(** C8, as the claim states it, fails on a collection of one public
    document: the item the recent listing sends has the identifier
    under [_id] and under [id], the item the first page sends has no
    [_id] and a null [id]. *)
Lemma recent_sent_item_differs :
  recent_sent sample_now (Some 5) [earlier_doc]
  = Recent_200
      [[("_id", V_id 1);
        ("name", V_string "Maria Santos");
        ("message", V_string "Thanks for the quick setup guide");
        ("priority", V_string "medium");
        ("tags", V_strings []);
        ("createdAt", V_date 1700000000000);
        ("formattedDate", V_formattedDate 1700000000000);
        ("timeAgo", V_string "10 minutes ago");
        ("id", V_hex 1)]] 1
  /\ listing_sent sample_now (first_page 5) [earlier_doc]
     = List_200
         [[("name", V_string "Maria Santos");
           ("message", V_string "Thanks for the quick setup guide");
           ("priority", V_string "medium");
           ("tags", V_strings []);
           ("createdAt", V_date 1700000000000);
           ("formattedDate", V_formattedDate 1700000000000);
           ("timeAgo", V_string "10 minutes ago");
           ("id", V_null)]]
         (mkPagination 1 1%float 1 5 false false).
Proof.
  vm_compute. repeat split.
Qed.

(* ================================================================== *)
(** * Deletion *)
(* ================================================================== *)

Lemma option_string_eqb_eq (a b : option string) :
  option_string_eqb a b = true <-> a = b.
Proof.
  destruct a as [x|], b as [y|]; simpl; try (split; congruence).
  rewrite String.eqb_eq. split; congruence.
Qed.

(** The comparison of the handler, on the object [req.headers] it is
    given: the deletion is refused with 401 exactly when the property
    [adminKey] of that object differs from the configured key, and then
    the collection is untouched; when both are absent the check passes
    and the deletion is carried out on the collection. *)
Lemma admin_key_check (ADMIN_KEY : option string) (headers : Obj string)
    (id : option Z) (store : Store) :
  (fst (deleteById ADMIN_KEY headers id store) = Unauthorized_401
   <-> lookup "adminKey" headers <> ADMIN_KEY)
  /\ (lookup "adminKey" headers <> ADMIN_KEY ->
      snd (deleteById ADMIN_KEY headers id store) = store)
  /\ (ADMIN_KEY = None -> lookup "adminKey" headers = None ->
      forall i, id = Some i ->
        snd (deleteById ADMIN_KEY headers id store)
        = snd (findByIdAndDelete i store)
        /\ (fst (deleteById ADMIN_KEY headers id store) = Deleted_200
            <-> exists d, In d store /\ _id d = i)).
Proof.
  unfold deleteById. cbv zeta.
  destruct (option_string_eqb (lookup "adminKey" headers) ADMIN_KEY) eqn:E;
    cbn [negb].
  - apply option_string_eqb_eq in E. split; [|split].
    + split; [|congruence].
      destruct id as [i|]; [|discriminate].
      now destruct (findByIdAndDelete i store) as [[d|] s'].
    + congruence.
    + intros _ _ i ->. unfold findByIdAndDelete.
      destruct (List.find _ store) as [d|] eqn:F; cbn [fst snd].
      * split; [reflexivity|]. split; [|reflexivity]. intros _.
        apply find_some in F as [Hin Hid]. exists d.
        split; [exact Hin | now apply Z.eqb_eq].
      * split; [reflexivity|]. split; [discriminate|].
        intros (d & Hin & Hid). apply (find_none _ _ F) in Hin.
        apply Z.eqb_eq in Hid. congruence.
  - assert (Hne : lookup "adminKey" headers <> ADMIN_KEY).
    { intros H. apply option_string_eqb_eq in H. congruence. }
    split; [|split].
    + now split.
    + reflexivity.
    + intros -> Hl. now rewrite Hl in Hne.
Qed.

Lemma lookup_lower_cased (k : string) (headers : Obj string) :
  toLowerCase k <> k -> lower_cased_names headers -> lookup k headers = None.
Proof.
  intros Hk. induction 1 as [|[k' v] headers Hx _ IH]; [reflexivity|].
  cbn [lookup fst] in *.
  destruct (String.eqb_spec k k') as [->|_]; [contradiction | exact IH].
Qed.

(** C10, as the code has it on a request that HTTP delivers. The
    handler reads the property [adminKey] of [req.headers], whose names
    are all in lower case: the property is absent whatever the client
    sent. So with a key configured every deletion request is answered
    401 and the collection is untouched, the request that presents the
    configured key included; with no key configured no request is
    answered 401 and the deletion is carried out. *)
Theorem admin_key_over_http (ADMIN_KEY : option string) (headers : Obj string)
    (id : option Z) (store : Store) :
  lower_cased_names headers ->
  lookup "adminKey" headers = None
  /\ (forall key, ADMIN_KEY = Some key ->
        deleteById ADMIN_KEY headers id store = (Unauthorized_401, store))
  /\ (ADMIN_KEY = None ->
      fst (deleteById ADMIN_KEY headers id store) <> Unauthorized_401
      /\ forall i, id = Some i ->
           snd (deleteById ADMIN_KEY headers id store)
           = snd (findByIdAndDelete i store)).
Proof.
  intros Hh.
  assert (Hl : lookup "adminKey" headers = None).
  { apply lookup_lower_cased; [discriminate | exact Hh]. }
  split; [exact Hl|]. unfold deleteById. cbv zeta. rewrite Hl. split.
  - intros key ->. reflexivity.
  - intros ->. cbn [option_string_eqb negb]. split.
    + destruct id as [i|]; [|discriminate].
      now destruct (findByIdAndDelete i store) as [[d|] s'].
    + intros i ->. unfold findByIdAndDelete.
      now destruct (List.find _ store).
Qed.

Lemma headers_with_key_lower : lower_cased_names headers_with_key.
Proof.
  apply Forall_cons; [reflexivity|]. apply Forall_cons; [reflexivity|].
  apply Forall_nil.
Defined.

(** C10 on the request that presents the configured key: the value sent
    is the configured one, and the request is answered 401 with the
    collection as it was. *)
Lemma admin_key_over_http_witness :
  lookup "adminkey" headers_with_key = Some sample_key
  /\ deleteById (Some sample_key) headers_with_key (Some 7) mixed_store
     = (Unauthorized_401, mixed_store).
Proof.
  split; [reflexivity|].
  exact (proj1 (proj2 (admin_key_over_http (Some sample_key) headers_with_key
                         (Some 7) mixed_store headers_with_key_lower))
           sample_key eq_refl).
Defined.

(* ================================================================== *)
(** * Closed instances of the general facts *)
(* ================================================================== *)

Lemma first_page_listing :
  listPaged (first_page 5) [earlier_doc; archived_doc]
  = List_200
      [[("name", V_string "Maria Santos");
        ("message", V_string "Thanks for the quick setup guide");
        ("priority", V_string "medium");
        ("tags", V_strings []);
        ("createdAt", V_date 1700000000000)]]
      (mkPagination 1 1%float 1 5 false false).
Proof.
  vm_compute. reflexivity.
Defined.

(** The second page of ten over fifteen matching documents holds five
    items, has no next page and has a previous one. *)
Example second_page_of_fifteen :
  match listPaged (mkParams (Some 2) (Some 10) None None None) fifteen_docs with
  | List_200 data pg =>
      List.length data = 5%nat /\ totalItems pg = 15 /\ totalPages pg = 2%float
      /\ hasNextPage pg = false /\ hasPrevPage pg = true
  | _ => False
  end.
Proof.
  vm_compute. repeat split.
Qed.

Lemma public_listing_hides_fields_witness :
  let it := [("name", V_string "Maria Santos");
             ("message", V_string "Thanks for the quick setup guide");
             ("priority", V_string "medium");
             ("tags", V_strings []);
             ("createdAt", V_date 1700000000000)] in
  ~ has_field "_id" it /\ ~ has_field "email" it
  /\ ~ has_field "ipAddress" it /\ ~ has_field "userAgent" it.
Proof.
  exact (public_listing_hides_fields (first_page 5) [earlier_doc; archived_doc]
           _ _ _ eq_refl first_page_listing (or_introl eq_refl)).
Defined.

Lemma public_listing_without_status_witness :
  exists d, In d [earlier_doc; archived_doc]
            /\ [("name", V_string "Maria Santos");
                ("message", V_string "Thanks for the quick setup guide");
                ("priority", V_string "medium");
                ("tags", V_strings []);
                ("createdAt", V_date 1700000000000)]
               = select (list_select (first_page 5)) d
            /\ isPublic d = true /\ status d <> S_archived.
Proof.
  exact (public_listing_without_status (first_page 5) [earlier_doc; archived_doc]
           _ _ _ eq_refl eq_refl first_page_listing (or_introl eq_refl)).
Defined.

Lemma auto_tag_keeps_priority_witness :
  priority (pre_save true urgent_praise) = priority urgent_praise.
Proof.
  destruct keywords_lower_case as (Lb & _ & Ln).
  apply (auto_tag_keeps_priority urgent_praise).
  - intros H. apply (contains_any_existsb _ _ Lb) in H. discriminate H.
  - intros H. apply (contains_any_existsb _ _ Ln) in H. discriminate H.
Defined.

(* ================================================================== *)
(** * More on the pre-save hook *)
(* ================================================================== *)

Lemma Set_add_NoDup (acc : list string) (x : string) :
  NoDup acc -> NoDup (Set_add acc x).
Proof.
  intros H. unfold Set_add. destruct (existsb (String.eqb x) acc) eqn:E; [exact H|].
  apply NoDup_app; [exact H | repeat constructor; intros [] |].
  intros y Hy [E'|[]]. subst y.
  assert (existsb (String.eqb x) acc = true); [|congruence].
  apply existsb_exists. exists x. split; [exact Hy | apply String.eqb_refl].
Qed.

Lemma fold_Set_add_NoDup (xs acc : list string) :
  NoDup acc -> NoDup (fold_left Set_add xs acc).
Proof.
  revert acc; induction xs as [|x xs IH]; intros acc H; simpl; [exact H|].
  apply IH, Set_add_NoDup, H.
Qed.

Lemma Set_spread_NoDup (xs : list string) : NoDup (Set_spread xs).
Proof.
  apply fold_Set_add_NoDup. constructor.
Qed.

Lemma Set_add_known (acc : list string) (x : string) :
  In x acc -> Set_add acc x = acc.
Proof.
  intros H. unfold Set_add.
  destruct (existsb (String.eqb x) acc) eqn:E; [reflexivity|].
  assert (existsb (String.eqb x) acc = true); [|congruence].
  apply existsb_exists. exists x. split; [exact H | apply String.eqb_refl].
Qed.

Lemma fold_Set_add_known (xs acc : list string) :
  incl xs acc -> fold_left Set_add xs acc = acc.
Proof.
  induction xs as [|x xs IH]; intros H; simpl; [reflexivity|].
  rewrite Set_add_known by (apply H; now left).
  apply IH. intros y Hy. apply H. now right.
Qed.

Lemma Set_add_new (acc : list string) (x : string) :
  ~ In x acc -> Set_add acc x = acc ++ [x].
Proof.
  intros H. unfold Set_add.
  destruct (existsb (String.eqb x) acc) eqn:E; [|reflexivity].
  apply existsb_exists in E as (y & Hy & Hxy).
  apply String.eqb_eq in Hxy. now subst y.
Qed.

Lemma fold_Set_add_NoDup_app (xs acc : list string) :
  NoDup (acc ++ xs) -> fold_left Set_add xs acc = acc ++ xs.
Proof.
  revert acc; induction xs as [|x xs IH]; intros acc H; simpl.
  - now rewrite app_nil_r.
  - rewrite Set_add_new.
    + rewrite IH; rewrite <- app_assoc; [reflexivity | exact H].
    + apply NoDup_remove_2 in H. intros Hx. apply H, in_app_iff. now left.
Qed.

(** Spreading a set over a list without repetition gives the list. *)
Lemma Set_spread_fixed (xs : list string) : NoDup xs -> Set_spread xs = xs.
Proof.
  intros H. unfold Set_spread. now rewrite fold_Set_add_NoDup_app.
Qed.

Lemma Set_spread_absorbs (xs ys : list string) :
  Set_spread (Set_spread (xs ++ ys) ++ ys) = Set_spread (xs ++ ys).
Proof.
  unfold Set_spread at 1. rewrite fold_left_app.
  fold (Set_spread (Set_spread (xs ++ ys))).
  rewrite Set_spread_fixed by apply Set_spread_NoDup.
  apply fold_Set_add_known. intros y Hy.
  apply Set_spread_In, in_app_iff. now right.
Qed.

(** The hook in one piece: the document with the priority of the rules
    that assign one and with the set of its tags and the pushed ones. *)
Lemma pre_save_closed (this : Feedback) :
  truthy_string (message this) = true ->
  pre_save true this
  = set_tags
      (Set_spread (tags this ++ autoTags_of (toLowerCase (message this))))
      (if existsb (includes (toLowerCase (message this))) bug_keywords
          || existsb (includes (toLowerCase (message this))) negative_keywords
       then set_priority P_high this else this).
Proof.
  intros Hm. unfold pre_save. rewrite Hm. cbn [andb]. cbv zeta.
  unfold autoTags_of, auto_rules, tag_rule. cbn [flat_map fst snd].
  destruct (existsb _ bug_keywords), (existsb _ feature_keywords),
    (existsb _ mobile_keywords), (existsb _ hardware_keywords),
    (existsb _ positive_keywords), (existsb _ negative_keywords);
    destruct this; reflexivity.
Qed.

Lemma keywords_lower_case_all (r : list string * string) :
  In r auto_rules -> lower_case_list (fst r).
Proof.
  intros H kw Hk. simpl in H.
  repeat (destruct H as [<-|H]; [simpl in Hk; intuition; subst; now split|]).
  contradiction.
Qed.

(** The tags of a new document after the hook are those it came with
    and, for each rule one of whose keywords the message contains in
    any letter case, the tag of the rule: nothing else, nothing less. *)
Theorem hook_tags_exactly (this : Feedback) (t : string) :
  truthy_string (message this) = true ->
  (In t (tags (pre_save true this))
   <-> In t (tags this)
       \/ exists r, In r auto_rules /\ t = snd r
                    /\ contains_any_ci (message this) (fst r)).
Proof.
  intros Hm. rewrite (pre_save_closed _ Hm). unfold set_tags at 1. cbn [tags].
  rewrite Set_spread_In, in_app_iff.
  apply or_iff_compat_l. unfold autoTags_of. rewrite in_flat_map.
  split.
  - intros (r & Hr & Hin). exists r. split; [exact Hr|].
    destruct (existsb _ (fst r)) eqn:E; [|contradiction].
    destruct Hin as [<-|[]]. split; [reflexivity|].
    now apply (contains_any_existsb _ _ (keywords_lower_case_all _ Hr)).
  - intros (r & Hr & -> & Hc). exists r. split; [exact Hr|].
    apply (contains_any_existsb _ _ (keywords_lower_case_all _ Hr)) in Hc.
    rewrite Hc. now left.
Qed.

(** After the hook has run on a new document with a message, no tag
    occurs twice. *)
Theorem hook_tags_NoDup (this : Feedback) :
  truthy_string (message this) = true -> NoDup (tags (pre_save true this)).
Proof.
  intros Hm. rewrite (pre_save_closed _ Hm). apply Set_spread_NoDup.
Qed.

(** Running the hook again on its own result changes nothing. *)
Theorem hook_idempotent (this : Feedback) :
  pre_save true (pre_save true this) = pre_save true this.
Proof.
  destruct (truthy_string (message this)) eqn:Hm.
  - assert (Hm' : truthy_string (message (pre_save true this)) = true).
    { now rewrite (pre_save_frame message) by reflexivity. }
    rewrite (pre_save_closed _ Hm').
    rewrite (pre_save_frame message) by reflexivity.
    rewrite (pre_save_closed _ Hm).
    set (auto := autoTags_of (toLowerCase (message this))).
    destruct (existsb _ bug_keywords || existsb _ negative_keywords);
      unfold set_tags, set_priority;
      cbn [_id name email contactNumber message rating status ipAddress
           userAgent isPublic priority tags createdAt updatedAt];
      rewrite Set_spread_absorbs; reflexivity.
  - unfold pre_save. rewrite Hm. cbn [andb]. now rewrite Hm.
Qed.

(** The hook writes [priority] and [tags] and no other path, and does
    nothing at all on a document that is not new. *)
Theorem hook_frame (isNew : bool) (this : Feedback) :
  (_id (pre_save isNew this) = _id this
   /\ name (pre_save isNew this) = name this
   /\ email (pre_save isNew this) = email this
   /\ contactNumber (pre_save isNew this) = contactNumber this
   /\ message (pre_save isNew this) = message this
   /\ rating (pre_save isNew this) = rating this)
  /\ (status (pre_save isNew this) = status this
      /\ ipAddress (pre_save isNew this) = ipAddress this
      /\ userAgent (pre_save isNew this) = userAgent this
      /\ isPublic (pre_save isNew this) = isPublic this
      /\ createdAt (pre_save isNew this) = createdAt this
      /\ updatedAt (pre_save isNew this) = updatedAt this)
  /\ pre_save false this = this.
Proof.
  repeat split; try (apply pre_save_frame; reflexivity).
Qed.

(* ================================================================== *)
(** * Sorting and paging *)
(* ================================================================== *)

Lemma insert_desc_sorted (d : Feedback) (l : list Feedback) :
  newest_first l -> newest_first (insert_desc d l).
Proof.
  unfold newest_first. induction l as [|x l IH]; intros H; simpl.
  - repeat constructor.
  - apply StronglySorted_inv in H as [Hl Hx].
    destruct (Z.leb_spec (createdAt x) (createdAt d)) as [Hle|Hgt].
    + constructor; [now constructor|]. constructor; [exact Hle|].
      eapply Forall_impl; [|exact Hx]. simpl. intros; lia.
    + constructor; [now apply IH|].
      apply Forall_forall. intros y Hy. apply insert_desc_In in Hy as [->|Hy].
      * lia.
      * revert y Hy. now apply Forall_forall.
Qed.

Lemma sort_desc_sorted (l : list Feedback) : newest_first (sort_desc l).
Proof.
  induction l as [|d l IH]; simpl; [constructor | now apply insert_desc_sorted].
Qed.

Lemma insert_desc_perm (d : Feedback) (l : list Feedback) :
  Permutation (insert_desc d l) (d :: l).
Proof.
  induction l as [|x l IH]; simpl; [reflexivity|].
  destruct (createdAt x <=? createdAt d); [reflexivity|].
  rewrite IH. apply perm_swap.
Qed.

Lemma sort_desc_perm (l : list Feedback) : Permutation (sort_desc l) l.
Proof.
  induction l as [|d l IH]; simpl; [reflexivity|].
  now rewrite insert_desc_perm, IH.
Qed.

Lemma newest_first_app (l1 l2 : list Feedback) :
  newest_first (l1 ++ l2) ->
  newest_first l1 /\ newest_first l2
  /\ forall a b, In a l1 -> In b l2 -> createdAt b <= createdAt a.
Proof.
  unfold newest_first. induction l1 as [|x l1 IH]; simpl; intros H.
  - repeat split; [constructor | exact H | contradiction].
  - apply StronglySorted_inv in H as [Hl Hx].
    destruct (IH Hl) as (H1 & H2 & H12). apply Forall_app in Hx as [Hx1 Hx2].
    repeat split; [now constructor | exact H2 |].
    intros a b [<-|Ha] Hb; [|now apply H12].
    revert b Hb. now apply Forall_forall.
Qed.

Lemma firstn_plus {A : Type} (n m : nat) (l : list A) :
  firstn (n + m) l = firstn n l ++ firstn m (skipn n l).
Proof.
  revert l; induction n as [|n IH]; intros l; [reflexivity|].
  destruct l as [|a l]; simpl; [now rewrite firstn_nil | now rewrite IH].
Qed.

(** Pages of [size] elements, one after the other, make up the front
    of the list. *)
Lemma pages_concat {A : Type} (size k : nat) (l : list A) :
  flat_map (fun i => firstn size (skipn ((i - 1) * size) l)) (seq 1 k)
  = firstn (k * size) l.
Proof.
  induction k as [|k IH]; [reflexivity|].
  rewrite seq_S, flat_map_app, IH. cbn [flat_map]. rewrite app_nil_r.
  replace (1 + k - 1)%nat with k by lia.
  replace (S k * size)%nat with (k * size + size)%nat by lia.
  now rewrite firstn_plus.
Qed.

(** One page of a listing, for a page number from 1 and a positive
    size: the slice of the matching documents, newest first, that the
    page number and the size cut out. *)
Lemma listPaged_page (p : ListParams) (store : Store) (i size : nat) :
  (1 <= i)%nat -> (1 <= size)%nat ->
  items_of (listPaged (at_page (Z.of_nat i) (Z.of_nat size) p) store)
  = map (select (list_select p))
      (firstn size (skipn ((i - 1) * size) (matching p store))).
Proof.
  intros Hi Hs. unfold listPaged, at_page, matching.
  cbn [p_page p_limit or_default].
  change (list_query (mkParams (Some (Z.of_nat i)) (Some (Z.of_nat size))
                        (p_status p) (p_priority p) (p_publicOnly p)))
    with (list_query p).
  change (list_select (mkParams (Some (Z.of_nat i)) (Some (Z.of_nat size))
                         (p_status p) (p_priority p) (p_publicOnly p)))
    with (list_select p).
  unfold skip. destruct (Z.ltb_spec ((Z.of_nat i - 1) * Z.of_nat size) 0); [nia|].
  cbn [items_of]. unfold limit.
  destruct (Z.eqb_spec (Z.of_nat size) 0); [lia|].
  rewrite Zabs2Nat.id. do 3 f_equal. nia.
Qed.

(** The pages of a listing, read one after the other with the same
    filters and a positive page size, return the matching documents
    newest first, each one once, none left out: the first [k] pages
    hold the first [k * size] of them, all of them once [k * size]
    reaches their number; and no page holds more than [size] items. *)
Theorem pages_cover_matching (p : ListParams) (store : Store) (size k : nat) :
  (1 <= size)%nat ->
  flat_map (fun i => items_of (listPaged (at_page (Z.of_nat i) (Z.of_nat size) p)
                                 store)) (seq 1 k)
  = map (select (list_select p)) (firstn (k * size) (matching p store))
  /\ ((List.length (matching p store) <= k * size)%nat ->
      flat_map (fun i => items_of (listPaged (at_page (Z.of_nat i)
                                               (Z.of_nat size) p) store))
        (seq 1 k)
      = map (select (list_select p)) (matching p store))
  /\ (forall i, (1 <= i)%nat ->
        (List.length (items_of (listPaged (at_page (Z.of_nat i) (Z.of_nat size) p)
                                  store)) <= size)%nat)
  /\ newest_first (matching p store)
  /\ Permutation (matching p store) (find (list_query p) store).
Proof.
  intros Hs.
  assert (E : flat_map (fun i => items_of (listPaged (at_page (Z.of_nat i)
                                                     (Z.of_nat size) p) store))
                (seq 1 k)
              = map (select (list_select p)) (firstn (k * size) (matching p store))).
  { rewrite <- (pages_concat size k). rewrite flat_map_concat_map.
    rewrite (flat_map_concat_map _ (seq 1 k)), concat_map, map_map.
    f_equal. apply map_ext_in. intros i Hi. apply in_seq in Hi.
    apply listPaged_page; lia. }
  split; [exact E|]. split; [|split; [|split]].
  - intros Hk. rewrite E. now rewrite firstn_all2.
  - intros i Hi. rewrite listPaged_page by lia.
    rewrite length_map, length_firstn. lia.
  - apply sort_desc_sorted.
  - apply sort_desc_perm.
Qed.

(** What an item of the recent listing is, whatever the document: its
    identifier, name, message, priority, tags and creation time, and
    no other path. *)
Lemma recent_item_shape (d : Feedback) :
  select "name message createdAt formattedDate timeAgo tags priority" d
  = [("_id", V_id (_id d));
     ("name", V_string (name d));
     ("message", V_string (message d));
     ("priority", V_string (priority_name (priority d)));
     ("tags", V_strings (tags d));
     ("createdAt", V_date (createdAt d))].
Proof.
  destruct d as [i n e [c|] m [r|] s [ip|] [ua|] pub pr ts ca ua'];
    reflexivity.
Qed.

Lemma limit_split (n : Z) (l : list Feedback) :
  exists rest, l = limit n l ++ rest
               /\ (0 < n -> List.length (limit n l)
                            = Nat.min (Z.to_nat n) (List.length l))
               /\ (n = 0 -> rest = []).
Proof.
  unfold limit. destruct (Z.eqb_spec n 0) as [->|Hn].
  - exists []. rewrite app_nil_r. repeat split; lia.
  - exists (skipn (Z.abs_nat n) l). rewrite firstn_skipn.
    repeat split; [|lia]. intros Hp. rewrite length_firstn. f_equal. lia.
Qed.

Lemma Forall2_map_r {A B : Type} (R : A -> B -> Prop) (f : A -> B) (l : list A) :
  (forall a, R a (f a)) -> Forall2 R l (map f l).
Proof.
  intros H. induction l as [|a l IH]; cbn [map]; constructor; auto.
Qed.

(** What the recent listing sends at time [now]: one item for each of
    the newest public documents that are not archived, newest first,
    with the identifier, name, message, priority, tags, creation time
    and the three virtuals of the document and without its e-mail
    address, contact number, IP address and user agent; a positive
    limit caps their number, the limit zero returns them all, and a
    document left out is no newer than one returned. *)
Theorem recent_are_newest_public (now lim : Z) (store : Store) :
  exists docs rest items,
    recent_sent now (Some lim) store
    = Recent_200 items (Z.of_nat (List.length docs))
    /\ Forall2 (sent_as_recent now) docs items
    /\ newest_first docs
    /\ Permutation (docs ++ rest) (find public_query store)
    /\ (forall d, In d docs ->
          In d store /\ isPublic d = true /\ status d <> S_archived)
    /\ (forall a b, In a docs -> In b rest -> createdAt b <= createdAt a)
    /\ (0 < lim -> List.length docs
                   = Nat.min (Z.to_nat lim)
                       (List.length (find public_query store)))
    /\ (lim = 0 -> rest = []).
Proof.
  destruct (limit_split lim (sort_desc (find public_query store)))
    as (rest & E & Hlen & Hzero).
  exists (limit lim (sort_desc (find public_query store))), rest.
  pose proof (sort_desc_sorted (find public_query store)) as Hs.
  rewrite E in Hs. apply newest_first_app in Hs as (Hs1 & _ & Hs12).
  pose proof (toJSON_all_map now _ _ _
                (limit lim (sort_desc (find public_query store)))
                (recent_sent_item now)) as Jr.
  match type of Jr with _ = Some ?r => exists r end.
  split; [|split; [|split; [|split; [|split; [|split; [|split]]]]]].
  - unfold recent_sent, getRecent, res_json. cbn [or_default].
    unfold getPublicFeedback. rewrite Jr, !length_map. reflexivity.
  - apply Forall2_map_r. intros d. unfold sent_as_recent.
    repeat split; reflexivity.
  - exact Hs1.
  - rewrite <- E. apply sort_desc_perm.
  - intros d Hd. apply limit_incl in Hd.
    apply (proj1 (sort_desc_In _ _)) in Hd. apply filter_In in Hd as [Hin Hm].
    split; [exact Hin|]. now apply (matches_public_slots public_query).
  - exact Hs12.
  - intros Hp. rewrite (Hlen Hp).
    now rewrite (Permutation_length (sort_desc_perm _)).
  - exact Hzero.
Qed.

(* ================================================================== *)
(** * More on strings and validation *)
(* ================================================================== *)

Lemma toLowerCase_char_idempotent (c : ascii) :
  toLowerCase_char (toLowerCase_char c) = toLowerCase_char c.
Proof.
  destruct c as [[] [] [] [] [] [] [] []]; reflexivity.
Qed.

Lemma toLowerCase_idempotent (s : string) :
  toLowerCase (toLowerCase s) = toLowerCase s.
Proof.
  induction s as [|c s IH]; simpl; [reflexivity|].
  now rewrite toLowerCase_char_idempotent, IH.
Qed.

Lemma toLowerCase_length (s : string) :
  String.length (toLowerCase s) = String.length s.
Proof.
  induction s as [|c s IH]; simpl; [reflexivity | now rewrite IH].
Qed.

Lemma trimStart_no_leading (s : string) : no_leading_space (trimStart s).
Proof.
  induction s as [|c s IH]; simpl; [exact I|].
  destruct (isWhiteSpace c) eqn:E; [exact IH | exact E].
Qed.

Lemma trimStart_fixed (s : string) : no_leading_space s -> trimStart s = s.
Proof.
  destruct s as [|c s]; simpl; [reflexivity|]. now intros ->.
Qed.

Lemma trimEnd_no_leading (s : string) :
  no_leading_space s -> no_leading_space (trimEnd s).
Proof.
  destruct s as [|c s]; simpl; [trivial|]. intros H.
  destruct (trimEnd s); simpl; [now rewrite H | exact H].
Qed.

Lemma trimEnd_idempotent (s : string) : trimEnd (trimEnd s) = trimEnd s.
Proof.
  induction s as [|c s IH]; [reflexivity|]. cbn [trimEnd].
  remember (trimEnd s) as t eqn:E. destruct t as [|c' t'].
  - destruct (isWhiteSpace c) eqn:W; cbn [trimEnd]; [reflexivity | now rewrite W].
  - remember (String c' t') as u. cbn [trimEnd]. rewrite IH. now subst u.
Qed.

(** Trimming twice is trimming once. *)
Lemma trim_idempotent (s : string) : trim (trim s) = trim s.
Proof.
  unfold trim.
  rewrite (trimStart_fixed (trimEnd (trimStart s)))
    by apply trimEnd_no_leading, trimStart_no_leading.
  apply trimEnd_idempotent.
Qed.

Lemma trimStart_length (s : string) :
  (String.length (trimStart s) <= String.length s)%nat.
Proof.
  induction s as [|c s IH]; simpl; [lia|]. destruct (isWhiteSpace c); simpl; lia.
Qed.

Lemma trimEnd_length (s : string) :
  (String.length (trimEnd s) <= String.length s)%nat.
Proof.
  induction s as [|c s IH]; simpl; [lia|].
  destruct (trimEnd s); [destruct (isWhiteSpace c)|]; simpl in *; lia.
Qed.

Lemma trim_length (s : string) : (String.length (trim s) <= String.length s)%nat.
Proof.
  unfold trim. pose proof (trimEnd_length (trimStart s)).
  pose proof (trimStart_length s). lia.
Qed.

Lemma firstn_1_app {A : Type} (l1 l2 : list A) :
  firstn 1 (firstn 1 l1 ++ l2) = firstn 1 (l1 ++ l2).
Proof.
  now destruct l1.
Qed.

Lemma firstn_1_flat_map {A B : Type} (f : A -> list B) (l : list A) (u : list B) :
  firstn 1 (flat_map (fun a => firstn 1 (f a)) l ++ u)
  = firstn 1 (flat_map f l ++ u).
Proof.
  induction l as [|a l IH]; [reflexivity|]. cbn [flat_map].
  rewrite <- !app_assoc.
  destruct (f a) as [|b bs]; [exact IH | reflexivity].
Qed.

Section MoreJoi.

Variable isEmailValid : string -> bool.

Lemma validate_key_first (key : string) (sch : StringSchema) (v : option JSON) :
  validate_key isEmailValid true key sch v
  = firstn 1 (validate_key isEmailValid false key sch v).
Proof.
  unfold validate_key.
  destruct v as [[| | |s| |]|]; try reflexivity.
  - now destruct (truthy_string s).
  - now destruct (s_required sch).
Qed.

(** Whatever the schema and the body, the violation validation reports
    by default is the first of those it would report when told to go
    on after an error. *)
Theorem abort_early_reports_first (keys : Obj StringSchema) (body : Obj JSON) :
  validate_with isEmailValid true keys body
  = firstn 1 (validate_with isEmailValid false keys body).
Proof.
  unfold validate_with, first_only.
  rewrite <- (firstn_1_flat_map
                (fun ks => validate_key isEmailValid false (fst ks) (snd ks)
                             (lookup (fst ks) body))).
  do 2 f_equal. apply flat_map_ext. intros ks. apply validate_key_first.
Qed.

Lemma get_string_lookup (k : string) (body : Obj JSON) (s : string) :
  get_string k body = Some s -> lookup k body = Some (J_string s).
Proof.
  unfold get_string. destruct (lookup k body) as [[| | |s'| |]|]; congruence.
Qed.

Lemma validate_fields_nonempty (body : Obj JSON) (k s : string) :
  validate isEmailValid body = [] ->
  In k ["name"; "email"; "contactNumber"; "message"] ->
  get_string k body = Some s -> truthy_string s = true.
Proof.
  unfold validate, validate_with. intros H Hk Hs.
  apply first_only_nil, app_eq_nil in H as [Hkeys _].
  pose proof (flat_map_nil _ _ Hkeys) as Hall.
  apply get_string_lookup in Hs.
  assert (Hsch : exists sch, In (k, sch) feedbackValidation
                             /\ s_required sch = true).
  { simpl in Hk. unfold feedbackValidation.
    destruct Hk as [<-|[<-|[<-|[<-|[]]]]]; eexists;
      (split;
       [ (now left) || (right; now left) || (right; right; now left)
         || (right; right; right; now left)
       | reflexivity ]). }
  destruct Hsch as (sch & Hin & Hreq). specialize (Hall _ Hin).
  cbn [fst snd] in Hall.
  destruct (validate_key_ok _ _ _ _ _ Hreq Hall) as (s' & E & T & _).
  congruence.
Qed.

Lemma lookup_In {A : Type} (k : string) (o : Obj A) (v : A) :
  lookup k o = Some v -> In k (map fst o).
Proof.
  induction o as [|[k' v'] o IH]; [discriminate|]. cbn [lookup map fst].
  destruct (String.eqb_spec k k') as [->|_]; [now left | intros H; right; auto].
Qed.

(** The bodies that pass validation, exactly: name, email, contact
    number and message are strings, the name of 2 to 100 characters,
    the contact number of 10 to 20, the message of 10 to 1000, the
    address not empty and accepted by the address library, and the
    body has no other key. *)
Theorem validate_passes_iff (body : Obj JSON) :
  validate isEmailValid body = []
  <-> (exists n e c m,
          get_string "name" body = Some n /\ get_string "email" body = Some e
          /\ get_string "contactNumber" body = Some c
          /\ get_string "message" body = Some m
          /\ (2 <= String.length n <= 100)%nat
          /\ (e <> EmptyString /\ isEmailValid e = true)
          /\ (10 <= String.length c <= 20)%nat
          /\ (10 <= String.length m <= 1000)%nat)
      /\ forall k, In k (map fst body) ->
                   mem k ["name"; "email"; "contactNumber"; "message"] = true.
Proof.
  split.
  - intros H. destruct (validate_ok _ _ H)
      as [(n & e & c & m & En & Ee & Ec & Em & Hn & He & Hc & Hm) Hkeys].
    split; [|exact Hkeys]. exists n, e, c, m.
    repeat (split; [assumption|]). split; [|now split].
    split; [|exact He]. intros ->.
    pose proof (validate_fields_nonempty body "email" EmptyString H) as T.
    simpl in T. discriminate T; auto.
  - intros [(n & e & c & m & En & Ee & Ec & Em & Hn & [Hne He] & Hc & Hm) Hkeys].
    apply get_string_lookup in En, Ee, Ec, Em.
    unfold validate, validate_with, first_only.
    replace (filter _ (map fst body)) with (@nil string).
    + cbn [flat_map feedbackValidation fst snd map app].
      rewrite En, Ee, Ec, Em. unfold validate_key.
      assert (Tn : truthy_string n = true)
        by (destruct n; [simpl in Hn; lia | reflexivity]).
      assert (Te : truthy_string e = true)
        by (destruct e; [now elim Hne | reflexivity]).
      assert (Tc : truthy_string c = true)
        by (destruct c; [simpl in Hc; lia | reflexivity]).
      assert (Tm : truthy_string m = true)
        by (destruct m; [simpl in Hm; lia | reflexivity]).
      rewrite Tn, Te, Tc, Tm. cbn [s_rules flat_map check_rule].
      rewrite He.
      destruct (Nat.ltb_spec (String.length n) 2); [lia|].
      destruct (Nat.ltb_spec 100 (String.length n)); [lia|].
      destruct (Nat.ltb_spec (String.length c) 10); [lia|].
      destruct (Nat.ltb_spec 20 (String.length c)); [lia|].
      destruct (Nat.ltb_spec (String.length m) 10); [lia|].
      destruct (Nat.ltb_spec 1000 (String.length m)); [lia|].
      reflexivity.
    + symmetry. induction (map fst body) as [|k ks IH]; [reflexivity|].
      cbn [filter]. cbn [map fst feedbackValidation] in *.
      rewrite (Hkeys k (or_introl eq_refl)). cbn [negb].
      apply IH. intros k' Hk'. apply Hkeys. now right.
Qed.

(** A body with a key the schema does not know (a rating, a priority,
    tags) is answered 400 and stores nothing, whatever else it holds. *)
Theorem unknown_key_rejected (now : Z) (ip agent : option string)
    (body : Obj JSON) (store : Store) (k : string) :
  In k (map fst body) ->
  mem k ["name"; "email"; "contactNumber"; "message"] = false ->
  statusCode (fst (submit isEmailValid now ip agent body store)) = 400
  /\ snd (submit isEmailValid now ip agent body store) = store.
Proof.
  intros Hin Hk. apply submit_invalid. intros Hv.
  apply validate_ok in Hv as [_ Hkeys]. rewrite (Hkeys _ Hin) in Hk.
  discriminate.
Qed.

End MoreJoi.

(* ================================================================== *)
(** * What a submission does to the collection *)
(* ================================================================== *)

Lemma validate_String_bounds (path rm m1 m2 : string) (lo hi : nat)
    (v : option string) :
  validate_String path (Some rm) (Some (lo, m1)) (Some (hi, m2)) None v = [] ->
  exists s, v = Some s /\ (lo <= String.length s <= hi)%nat.
Proof.
  unfold validate_String. destruct v as [s|]; [|discriminate].
  intros H. apply app_eq_nil in H as [_ H].
  apply app_eq_nil in H as [H1 H]. apply app_eq_nil in H as [H2 _].
  exists s. split; [reflexivity|].
  destruct (Nat.ltb_spec (String.length s) lo); [discriminate|].
  destruct (Nat.ltb_spec hi (String.length s)); [discriminate|]. lia.
Qed.

Lemma validate_String_optional (path m1 m2 : string) (lo hi : nat) (s : string) :
  validate_String path None (Some (lo, m1)) (Some (hi, m2)) None (Some s) = [] ->
  (lo <= String.length s <= hi)%nat.
Proof.
  unfold validate_String. intros H. cbn [app] in H.
  apply app_eq_nil in H as [H1 H]. apply app_eq_nil in H as [H2 _].
  destruct (Nat.ltb_spec (String.length s) lo); [discriminate|].
  destruct (Nat.ltb_spec hi (String.length s)); [discriminate|]. lia.
Qed.

Lemma validate_String_pattern (path rm pm : string) (v : option string) :
  validate_String path (Some rm) None None (Some pm) v = [] ->
  exists s, v = Some s /\ email_pattern s = true.
Proof.
  unfold validate_String. destruct v as [s|]; [|discriminate].
  intros H. apply app_eq_nil in H as [H0 H]. cbn [app] in H.
  exists s. split; [reflexivity|].
  destruct (truthy_string s); [|discriminate].
  cbn [negb orb] in H. now destruct (email_pattern s).
Qed.

(** A document that validation lets through is as the schema wants
    it. *)
Lemma validated_document (id now : Z) (data : FeedbackData) :
  validateSync (applySetters data) = [] ->
  schema_valid (document_of id now (applySetters data)).
Proof.
  unfold validateSync. intros H.
  apply app_eq_nil in H as [Hn H]. apply app_eq_nil in H as [He H].
  apply app_eq_nil in H as [Hc H]. apply app_eq_nil in H as [Hm Hr].
  apply validate_String_bounds in Hn as (n & En & Hn).
  apply validate_String_pattern in He as (e & Ee & He).
  apply validate_String_bounds in Hm as (m & Em & Hm).
  unfold schema_valid, document_of. cbn [name email message contactNumber rating].
  rewrite En, Ee, Em. cbn [or_empty].
  cbn [applySetters d_name d_email d_message d_contactNumber d_rating] in *.
  unfold set_trim, set_email in *.
  destruct (d_name data) as [n0|]; [|discriminate].
  destruct (d_email data) as [e0|]; [|discriminate].
  destruct (d_message data) as [m0|]; [|discriminate].
  cbn [option_map] in *. injection En as <-. injection Ee as <-. injection Em as <-.
  repeat split; try lia; try assumption.
  - apply trim_idempotent.
  - now rewrite <- trim_toLowerCase, toLowerCase_idempotent.
  - apply trim_idempotent.
  - apply trim_idempotent.
  - destruct (d_contactNumber data) as [c0|]; [|discriminate].
    cbn [option_map] in *. injection H as <-.
    apply validate_String_optional in Hc. lia.
  - destruct (d_contactNumber data) as [c0|]; [|discriminate].
    cbn [option_map] in *. injection H as <-.
    apply validate_String_optional in Hc. lia.
  - destruct (d_contactNumber data) as [c0|]; [|discriminate].
    cbn [option_map] in *. injection H as <-. apply trim_idempotent.
  - injection H as <-. unfold validate_rating in Hr.
    apply app_eq_nil in Hr as [Hr _].
    destruct (Z.ltb_spec (match d_rating data with Some r => r | None => default_rating end) 1);
      [discriminate | lia].
  - injection H as <-. unfold validate_rating in Hr.
    apply app_eq_nil in Hr as [_ Hr].
    destruct (Z.ltb_spec 5 (match d_rating data with Some r => r | None => default_rating end));
      [discriminate | lia].
Qed.

Lemma schema_valid_pre_save (b : bool) (d : Feedback) :
  schema_valid d -> schema_valid (pre_save b d).
Proof.
  unfold schema_valid.
  now rewrite (pre_save_frame name), (pre_save_frame email),
    (pre_save_frame message), (pre_save_frame contactNumber),
    (pre_save_frame rating) by reflexivity.
Qed.

Lemma fresh_id_above (store : Store) (d : Feedback) :
  In d store -> _id d < fresh_id store.
Proof.
  unfold fresh_id. induction store as [|x store IH]; [contradiction|].
  cbn [map fold_right]. intros [->|H]; [lia|]. specialize (IH H). lia.
Qed.

Lemma fresh_id_new (store : Store) : ~ In (fresh_id store) (map _id store).
Proof.
  intros H. apply in_map_iff in H as (d & E & Hd).
  apply fresh_id_above in Hd. lia.
Qed.

Lemma pre_save_priority_range (d : Feedback) :
  priority (pre_save true d) = priority d \/ priority (pre_save true d) = P_high.
Proof.
  destruct (truthy_string (message d)) eqn:Hm.
  - rewrite pre_save_priority by exact Hm. destruct (_ || _); auto.
  - left. unfold pre_save. now rewrite Hm.
Qed.

Section SubmitEffect.

Variable isEmailValid : string -> bool.

(** What led to a 201. *)
Lemma submit_created_inv (now : Z) (ip agent : option string) (body : Obj JSON)
    (store : Store) :
  statusCode (fst (submit isEmailValid now ip agent body store)) = 201 ->
  validate isEmailValid body = []
  /\ exists address,
      get_string "email" body = Some address
      /\ findOne (duplicate_query now address) store = None
      /\ validateSync (applySetters (feedbackData_of ip agent body)) = [].
Proof.
  unfold submit, save_new.
  destruct (validate isEmailValid body); [|discriminate]. cbv zeta.
  destruct (get_string "email" body) as [address|]; [|discriminate].
  destruct (findOne _ store) eqn:F; [discriminate|].
  destruct (validateSync _) eqn:V; [|discriminate].
  intros _. split; [reflexivity|]. exists address. auto.
Qed.

Lemma submit_not_created (now : Z) (ip agent : option string) (body : Obj JSON)
    (store : Store) :
  statusCode (fst (submit isEmailValid now ip agent body store)) <> 201 ->
  snd (submit isEmailValid now ip agent body store) = store
  /\ In (statusCode (fst (submit isEmailValid now ip agent body store)))
       [400; 429; 500].
Proof.
  unfold submit, save_new.
  destruct (validate isEmailValid body); cbv zeta.
  - destruct (get_string "email" body) as [address|]; [|simpl; auto].
    destruct (findOne _ store); [simpl; auto|].
    destruct (validateSync _); [|simpl; auto].
    simpl. congruence.
  - simpl; auto.
Qed.

(** The two outcomes of a submission. *)
Lemma submit_outcome (now : Z) (ip agent : option string) (body : Obj JSON)
    (store : Store) :
  (snd (submit isEmailValid now ip agent body store) = store
   /\ In (statusCode (fst (submit isEmailValid now ip agent body store)))
        [400; 429; 500])
  \/ exists doc,
      submit isEmailValid now ip agent body store
      = (Created_201 (_id doc) (name doc) (message doc) now S_new, store ++ [doc])
      /\ ~ In (_id doc) (map _id store)
      /\ schema_valid doc
      /\ rating doc = Some 5 /\ status doc = S_new /\ isPublic doc = true
      /\ (priority doc = P_medium \/ priority doc = P_high)
      /\ createdAt doc = now /\ updatedAt doc = now
      /\ ipAddress doc = ip /\ userAgent doc = agent
      /\ NoDup (tags doc).
Proof.
  destruct (Z.eq_dec (statusCode (fst (submit isEmailValid now ip agent body store)))
              201) as [H|H].
  - right. apply submit_created_inv in H as (Hv & address & He & Hf & Hs).
    pose proof (submit_created isEmailValid _ ip agent _ _ _ Hv He Hf Hs) as E.
    cbv zeta in E.
    set (d0 := document_of (fresh_id store) now
                 (applySetters (feedbackData_of ip agent body))) in *.
    exists (pre_save true d0). rewrite E.
    rewrite !(pre_save_frame createdAt), !(pre_save_frame status),
      !(pre_save_frame _id), !(pre_save_frame rating),
      !(pre_save_frame isPublic), !(pre_save_frame updatedAt),
      !(pre_save_frame ipAddress), !(pre_save_frame userAgent) by reflexivity.
    split; [reflexivity|]. split; [apply fresh_id_new|].
    split; [apply schema_valid_pre_save, validated_document, Hs|].
    repeat (split; [reflexivity|]).
    split; [exact (pre_save_priority_range d0)|].
    repeat (split; [reflexivity|]).
    destruct (truthy_string (message d0)) eqn:Hm.
    + rewrite (pre_save_closed _ Hm). apply Set_spread_NoDup.
    + unfold pre_save. rewrite Hm. cbn. constructor.
  - left. now apply submit_not_created.
Qed.

(** A submission is answered 400, 429 or 500 and leaves the collection
    as it was, or is answered 201 and appends one document, leaving
    the others in place. The appended document has an identifier no
    other document has, is as the schema wants it, has rating 5, status
    new, priority medium or high, is public, carries the time of the
    request, the caller's IP address and user agent, and no tag twice;
    the answer repeats its identifier, name and message. *)
Theorem submit_effect (now : Z) (ip agent : option string) (body : Obj JSON)
    (store : Store) :
  (snd (submit isEmailValid now ip agent body store) = store
   /\ In (statusCode (fst (submit isEmailValid now ip agent body store)))
        [400; 429; 500])
  \/ exists doc,
      submit isEmailValid now ip agent body store
      = (Created_201 (_id doc) (name doc) (message doc) now S_new, store ++ [doc])
      /\ ~ In (_id doc) (map _id store)
      /\ schema_valid doc
      /\ rating doc = Some 5 /\ status doc = S_new /\ isPublic doc = true
      /\ (priority doc = P_medium \/ priority doc = P_high)
      /\ createdAt doc = now /\ updatedAt doc = now
      /\ ipAddress doc = ip /\ userAgent doc = agent
      /\ NoDup (tags doc).
Proof.
  exact (submit_outcome now ip agent body store).
Qed.

(** A submission keeps the identifiers distinct and the documents as
    the schema wants them. *)
Theorem submit_keeps_store_ok (now : Z) (ip agent : option string)
    (body : Obj JSON) (store : Store) :
  store_ok store ->
  store_ok (snd (submit isEmailValid now ip agent body store)).
Proof.
  intros [Hid Hall].
  destruct (Z.eq_dec (statusCode (fst (submit isEmailValid now ip agent body store)))
              201) as [H|H].
  - apply submit_created_inv in H as (Hv & address & He & Hf & Hs).
    rewrite (submit_created isEmailValid _ ip agent _ _ _ Hv He Hf Hs).
    cbn [snd]. split.
    + rewrite map_app. apply NoDup_app; [exact Hid | repeat constructor; intros [] |].
      intros a Ha [E|[]]. rewrite (pre_save_frame _id) in E by reflexivity.
      subst a. now apply fresh_id_new in Ha.
    + apply Forall_app. split; [exact Hall|]. constructor; [|constructor].
      apply schema_valid_pre_save, validated_document, Hs.
  - apply submit_not_created in H as [-> _]. now split.
Qed.

(** After a submission was stored, the same body is refused for the
    next sixty minutes, provided its address has no white space around
    it (the address library accepts no other). *)
Theorem resubmission_refused (now later : Z) (ip agent ip' agent' : option string)
    (body : Obj JSON) (store : Store) (address : string) :
  statusCode (fst (submit isEmailValid now ip agent body store)) = 201 ->
  get_string "email" body = Some address -> trim address = address ->
  now <= later <= now + 60 * 60 * 1000 ->
  submit isEmailValid later ip' agent' body
    (snd (submit isEmailValid now ip agent body store))
  = (DuplicateSubmission_429, snd (submit isEmailValid now ip agent body store)).
Proof.
  intros H He Ht Hl.
  apply submit_created_inv in H as (Hv & address' & He' & Hf & Hs).
  assert (address' = address) by congruence. subst address'.
  rewrite (submit_created isEmailValid _ ip agent _ _ _ Hv He Hf Hs). cbn [snd].
  apply (submit_duplicate isEmailValid _ _ _ _ _ address Hv He).
  eexists. split; [apply in_app_iff; right; now left|].
  rewrite (pre_save_frame email), (pre_save_frame createdAt) by reflexivity.
  cbn [document_of email createdAt applySetters feedbackData_of d_email].
  rewrite He. cbn [set_email option_map or_empty].
  rewrite trim_toLowerCase, Ht. split; [reflexivity | lia].
Qed.

End SubmitEffect.

(* ================================================================== *)
(** * One feedback by its identifier, and deletion *)
(* ================================================================== *)

Lemma findById_some (i : Z) (store : Store) (d : Feedback) :
  findById i store = Some d -> In d store /\ _id d = i.
Proof.
  unfold findById. intros H. apply find_some in H as [Hin Hid].
  split; [exact Hin | now apply Z.eqb_eq].
Qed.

Lemma findById_none (i : Z) (store : Store) :
  findById i store = None <-> forall d, In d store -> _id d <> i.
Proof.
  unfold findById. split.
  - intros H d Hd E. apply (find_none _ _ H) in Hd. apply Z.eqb_neq in Hd. auto.
  - intros H. destruct (List.find _ store) as [d|] eqn:F; [|reflexivity].
    apply find_some in F as [Hin Hid]. apply Z.eqb_eq in Hid.
    now apply H in Hin.
Qed.

Lemma findById_unique (store : Store) (d : Feedback) :
  NoDup (map _id store) -> In d store -> findById (_id d) store = Some d.
Proof.
  unfold findById. induction store as [|x store IH]; [contradiction|].
  cbn [map List.find]. intros Hn Hd. apply NoDup_cons_iff in Hn as [Hx Hn].
  destruct (Z.eqb_spec (_id x) (_id d)) as [E|E].
  - destruct Hd as [->|Hd]; [reflexivity|].
    exfalso. apply Hx. rewrite E. now apply in_map.
  - destruct Hd as [->|Hd]; [now elim E | now apply IH].
Qed.

(** A document found by its identifier as it is sent. *)
Lemma byid_sent (now : Z) (d : Feedback) :
  exists item,
    toJSON now (hydrate "-ipAddress -userAgent"
                  (select "-ipAddress -userAgent" d)) = Some item
    /\ sent_in_full now d item.
Proof.
  destruct d as [i n e [c|] m [r|] s [ip|] [ua|] pub pr ts ca ua'];
    (eexists; split; [reflexivity|]);
    unfold sent_in_full, rating_or_default; repeat split; reflexivity.
Qed.

Lemma archived_name (s : Status) :
  String.eqb (status_name s) "archived" = true <-> s = S_archived.
Proof.
  destruct s; cbn; split; congruence.
Qed.

(** With distinct identifiers, a request for one feedback at time [now]
    is answered 200 when the document of that identifier is public and
    not archived: it is sent with every stored path but the IP address
    and the user agent, the rating 5 where it stores none, and the
    three virtuals. A document that is private or archived is answered
    404, the answer an unknown identifier gets. *)
Theorem getById_answers (now i : Z) (store : Store) :
  NoDup (map _id store) ->
  (forall d, In d store -> _id d = i ->
     isPublic d = true -> status d <> S_archived ->
     exists item, getById now (Some i) store = Found_200 item
                  /\ sent_in_full now d item)
  /\ (forall d, In d store -> _id d = i ->
        isPublic d = false \/ status d = S_archived ->
        getById now (Some i) store = Missing_404)
  /\ ((forall d, In d store -> _id d <> i) ->
      getById now (Some i) store = Missing_404).
Proof.
  intros Hn. split; [|split].
  - intros d Hd <- Hp Hs. unfold getById. rewrite (findById_unique _ _ Hn Hd).
    rewrite Hp. cbn [negb orb].
    destruct (String.eqb _ _) eqn:E; [now apply archived_name in E|].
    destruct (byid_sent now d) as (item & J & F). rewrite J. now exists item.
  - intros d Hd <- H. unfold getById. rewrite (findById_unique _ _ Hn Hd).
    destruct H as [-> | ->]; [reflexivity|].
    cbn [status_name]. now rewrite orb_true_r.
  - intros H. unfold getById. apply findById_none in H. now rewrite H.
Qed.

Lemma remove_first_unique (i : Z) (store : Store) :
  NoDup (map _id store) ->
  remove_first (fun d => _id d =? i) store
  = filter (fun d => negb (_id d =? i)) store.
Proof.
  induction store as [|x store IH]; [reflexivity|].
  cbn [map remove_first filter]. intros Hn. apply NoDup_cons_iff in Hn as [Hx Hn].
  destruct (Z.eqb_spec (_id x) i) as [E|_]; cbn [negb].
  - symmetry. apply forallb_filter_id. apply forallb_forall. intros d Hd.
    apply negb_true_iff, Z.eqb_neq. intros E'. apply Hx. rewrite E, <- E'.
    now apply in_map.
  - now rewrite IH.
Qed.

Lemma filter_ids_NoDup (f : Feedback -> bool) (store : Store) :
  NoDup (map _id store) -> NoDup (map _id (filter f store)).
Proof.
  induction store as [|x store IH]; [trivial|]. cbn [map filter].
  intros Hn. apply NoDup_cons_iff in Hn as [Hx Hn].
  destruct (f x); [|now apply IH]. cbn [map]. constructor; [|now apply IH].
  intros H. apply Hx. apply in_map_iff in H as (d & E & Hd).
  apply filter_In in Hd as [Hd _]. rewrite <- E. now apply in_map.
Qed.

Lemma findById_filter_other (i j : Z) (store : Store) :
  j <> i ->
  findById j (filter (fun d => negb (_id d =? i)) store) = findById j store.
Proof.
  intros Hj. unfold findById. induction store as [|x store IH]; [reflexivity|].
  cbn [filter List.find].
  destruct (Z.eqb_spec (_id x) i) as [E|E]; cbn [negb List.find].
  - destruct (Z.eqb_spec (_id x) j); [congruence | exact IH].
  - destruct (Z.eqb_spec (_id x) j); [reflexivity | exact IH].
Qed.

(** With distinct identifiers and no key configured, a deletion request
    that HTTP delivers removes the document of the identifier and no
    other: afterwards a request for that identifier is answered 404,
    and a request for any other identifier is answered as before. When
    no document has the identifier the answer is 404 and the collection
    is as it was. *)
Theorem delete_effect (headers : Obj string) (now i : Z) (store : Store) :
  NoDup (map _id store) -> lower_cased_names headers ->
  ((exists d, In d store /\ _id d = i) ->
   deleteById None headers (Some i) store
   = (Deleted_200, filter (fun d => negb (_id d =? i)) store))
  /\ ((forall d, In d store -> _id d <> i) ->
      deleteById None headers (Some i) store = (NotFound_404, store))
  /\ getById now (Some i) (snd (deleteById None headers (Some i) store))
     = Missing_404
  /\ (forall j, j <> i ->
        getById now (Some j) (snd (deleteById None headers (Some i) store))
        = getById now (Some j) store)
  /\ NoDup (map _id (snd (deleteById None headers (Some i) store))).
Proof.
  intros Hn Hh.
  assert (Hk : lookup "adminKey" headers = None).
  { apply lookup_lower_cased; [discriminate | exact Hh]. }
  assert (E : deleteById None headers (Some i) store
              = match findById i store with
                | Some _ => (Deleted_200, filter (fun d => negb (_id d =? i)) store)
                | None => (NotFound_404, store)
                end).
  { unfold deleteById. cbv zeta. rewrite Hk. cbn [option_string_eqb negb].
    unfold findByIdAndDelete, findById.
    destruct (List.find _ store); [|reflexivity].
    now rewrite remove_first_unique. }
  assert (Hgone : findById i (filter (fun d => negb (_id d =? i)) store) = None).
  { apply findById_none. intros d Hd. apply filter_In in Hd as [_ Hd].
    now apply negb_true_iff, Z.eqb_neq in Hd. }
  rewrite E. split; [|split; [|split; [|split]]].
  - intros (d & Hd & Hi). destruct (findById i store) eqn:F; [reflexivity|].
    apply (proj1 (findById_none _ _) F) in Hd. contradiction.
  - intros H. apply findById_none in H. now rewrite H.
  - destruct (findById i store) eqn:F; cbn [snd]; unfold getById.
    + now rewrite Hgone.
    + now rewrite F.
  - intros j Hj. destruct (findById i store); cbn [snd]; [|reflexivity].
    unfold getById. now rewrite findById_filter_other.
  - destruct (findById i store); cbn [snd]; [now apply filter_ids_NoDup | exact Hn].
Qed.

Lemma find_app_none {A : Type} (f : A -> bool) (l1 l2 : list A) :
  List.find f l1 = None -> List.find f (l1 ++ l2) = List.find f l2.
Proof.
  induction l1 as [|a l1 IH]; [reflexivity|]. cbn [List.find app].
  destruct (f a); [discriminate | exact IH].
Qed.

Section SubmitThenRead.

Variable isEmailValid : string -> bool.

(** The identifier a 201 answers with leads back to the stored
    document: a request for it at any later time is answered 200 with
    that document, whose name and message are those of the 201 answer,
    with the rating 5 and without the IP address and the user agent of
    the submission. *)
Theorem submit_then_getById (now later : Z) (ip agent : option string)
    (body : Obj JSON) (store : Store) :
  statusCode (fst (submit isEmailValid now ip agent body store)) = 201 ->
  exists doc item,
    fst (submit isEmailValid now ip agent body store)
    = Created_201 (_id doc) (name doc) (message doc) now S_new
    /\ getById later (Some (_id doc))
         (snd (submit isEmailValid now ip agent body store))
       = Found_200 item
    /\ sent_in_full later doc item
    /\ rating doc = Some 5.
Proof.
  intros H.
  destruct (submit_outcome isEmailValid now ip agent body store)
    as [[_ Hc]|(doc & E & Hfresh & _ & Hr & Hst & Hpub & _)].
  - rewrite H in Hc. simpl in Hc. intuition discriminate.
  - destruct (byid_sent later doc) as (item & J & F).
    exists doc, item. rewrite E. cbn [fst snd]. split; [reflexivity|].
    split; [|split; [exact F | exact Hr]].
    unfold getById, findById.
    assert (N : List.find (fun d => _id d =? _id doc) store = None).
    { apply findById_none. intros d Hd Ed. apply Hfresh. rewrite <- Ed.
      now apply in_map. }
    rewrite (find_app_none _ _ _ N). cbn [List.find].
    rewrite Z.eqb_refl, Hpub, Hst, J. reflexivity.
Qed.

End SubmitThenRead.

(* ================================================================== *)
(** * More on the statistics *)
(* ================================================================== *)

Lemma countDocuments_cons (q : Query) (d : Feedback) (store : Store) :
  countDocuments q (d :: store)
  = (if matches q d then 1 else 0) + countDocuments q store.
Proof.
  unfold countDocuments, find. cbn [filter].
  destruct (matches q d); cbn [List.length]; lia.
Qed.

Lemma countDocuments_app (q : Query) (s1 s2 : Store) :
  countDocuments q (s1 ++ s2) = countDocuments q s1 + countDocuments q s2.
Proof.
  unfold countDocuments, find. rewrite filter_app, length_app. lia.
Qed.

Lemma countDocuments_range (q : Query) (store : Store) :
  0 <= countDocuments q store <= Z.of_nat (List.length store).
Proof.
  unfold countDocuments, find. pose proof (filter_length_le (matches q) store). lia.
Qed.

Lemma matches_all (d : Feedback) : matches empty_query d = true.
Proof.
  reflexivity.
Qed.

Lemma matches_status (s : string) (d : Feedback) :
  matches (with_status (Equals s) empty_query) d
  = String.eqb (status_name (status d)) s.
Proof.
  unfold matches. cbn. now rewrite !andb_true_r.
Qed.

Lemma matches_priority (s : string) (d : Feedback) :
  matches (with_priority s empty_query) d
  = String.eqb (priority_name (priority d)) s.
Proof.
  unfold matches. cbn. now rewrite !andb_true_r.
Qed.

Lemma matches_rating (d : Feedback) :
  matches (with_rating (Gte 4) empty_query) d
  = match rating d with Some r => 4 <=? r | None => false end.
Proof.
  unfold matches. cbn. now destruct (rating d).
Qed.

Ltac decide_names :=
  repeat match goal with
         | |- context [String.eqb ?a ?b] =>
             let v := eval vm_compute in (String.eqb a b) in
             change (String.eqb a b) with v
         end.

Lemma count_all (store : Store) :
  countDocuments empty_query store = Z.of_nat (List.length store).
Proof.
  induction store as [|d store IH]; [reflexivity|].
  rewrite countDocuments_cons, matches_all, IH. cbn [List.length]. lia.
Qed.

Lemma count_by_status (store : Store) :
  countDocuments (with_status (Equals "new") empty_query) store
  + countDocuments (with_status (Equals "read") empty_query) store
  + countDocuments (with_status (Equals "responded") empty_query) store
  + countDocuments (with_status (Equals "archived") empty_query) store
  = Z.of_nat (List.length store).
Proof.
  induction store as [|d store IH]; [reflexivity|].
  rewrite !countDocuments_cons, !matches_status. cbn [List.length].
  destruct (status d); cbn [status_name]; decide_names; lia.
Qed.

Lemma count_by_priority (store : Store) :
  countDocuments (with_priority "high" empty_query) store
  + countDocuments (with_priority "urgent" empty_query) store
  <= Z.of_nat (List.length store).
Proof.
  induction store as [|d store IH]; [cbn; lia|].
  rewrite !countDocuments_cons, !matches_priority. cbn [List.length].
  destruct (priority d); cbn [priority_name]; decide_names; lia.
Qed.

(** The counters of the statistics: the total is the number of
    documents; new, read and responded count disjoint documents and,
    with the archived ones, all of them; high and urgent count disjoint
    documents; no counter exceeds the total. *)
Theorem getStats_counters (store : Store) :
  total (getStats store) = Z.of_nat (List.length store)
  /\ new (getStats store) + read (getStats store) + responded (getStats store)
     + countDocuments (with_status (Equals "archived") empty_query) store
     = total (getStats store)
  /\ 0 <= highPriority (getStats store)
  /\ 0 <= urgent (getStats store)
  /\ highPriority (getStats store) + urgent (getStats store)
     <= total (getStats store)
  /\ 0 <= highRatingCount (getStats store) <= total (getStats store)
  /\ (total (getStats store) = 0 <-> store = []).
Proof.
  unfold getStats. cbn [total new read responded highPriority urgent highRatingCount].
  rewrite count_all.
  split; [reflexivity|]. split; [apply count_by_status|].
  split; [apply countDocuments_range|]. split; [apply countDocuments_range|].
  split; [apply count_by_priority|]. split; [apply countDocuments_range|].
  destruct store; [now split | split; [cbn [List.length]; lia | discriminate]].
Qed.

(** Where no document carries a rating, as on the empty collection,
    the average is the fallback 4.8 and no rating counts as high; the
    percentage is the fallback 97 on the empty collection only. *)
Theorem getStats_without_ratings (store : Store) :
  (forall d, In d store -> rating d = None) ->
  averageRating (getStats store) = 4.8%float
  /\ highRatingCount (getStats store) = 0
  /\ (store = [] -> satisfactionPercentage (getStats store) = 97%float).
Proof.
  intros H. split; [|split].
  - unfold getStats. cbn [averageRating]. unfold aggregate_ratings.
    destruct store as [|d store]; [reflexivity|].
    replace (numeric_ratings (d :: store)) with (@nil Z); [reflexivity|].
    symmetry. unfold numeric_ratings.
    induction (d :: store) as [|x l IH]; [reflexivity|]. cbn [flat_map].
    rewrite (H x) by now left. apply IH. intros y Hy. apply H. now right.
  - unfold getStats. cbn [highRatingCount]. unfold countDocuments, find.
    replace (filter _ store) with (@nil Feedback); [reflexivity|].
    symmetry. induction store as [|x l IH]; [reflexivity|]. cbn [filter].
    rewrite matches_rating, (H x) by now left.
    apply IH. intros y Hy. apply H. now right.
  - now intros ->.
Qed.

Section StatsAfterSubmit.

Variable isEmailValid : string -> bool.

(** A stored submission adds one to the total, to the new documents and
    to the high ratings, at most one to the high priorities, and
    nothing to the other counters. *)
Theorem getStats_after_submit (now : Z) (ip agent : option string)
    (body : Obj JSON) (store : Store) :
  statusCode (fst (submit isEmailValid now ip agent body store)) = 201 ->
  total (getStats (snd (submit isEmailValid now ip agent body store)))
  = total (getStats store) + 1
  /\ new (getStats (snd (submit isEmailValid now ip agent body store)))
     = new (getStats store) + 1
  /\ highRatingCount (getStats (snd (submit isEmailValid now ip agent body store)))
     = highRatingCount (getStats store) + 1
  /\ read (getStats (snd (submit isEmailValid now ip agent body store)))
     = read (getStats store)
  /\ responded (getStats (snd (submit isEmailValid now ip agent body store)))
     = responded (getStats store)
  /\ urgent (getStats (snd (submit isEmailValid now ip agent body store)))
     = urgent (getStats store)
  /\ highPriority (getStats store)
     <= highPriority (getStats (snd (submit isEmailValid now ip agent body store)))
     <= highPriority (getStats store) + 1.
Proof.
  intros H.
  destruct (submit_outcome isEmailValid now ip agent body store)
    as [[_ Hc]|(doc & E & _ & _ & Hr & Hst & _ & Hp & _)].
  - rewrite H in Hc. simpl in Hc. intuition discriminate.
  - rewrite E. cbn [snd]. unfold getStats.
    cbn [total new read responded highPriority urgent highRatingCount].
    rewrite !countDocuments_app.
    assert (C : forall q, countDocuments q [doc] = if matches q doc then 1 else 0).
    { intros q. rewrite countDocuments_cons.
      destruct (matches q doc); reflexivity. }
    rewrite !C, matches_all, !matches_status, !matches_priority, matches_rating.
    rewrite Hr, Hst. cbn [status_name].
    destruct Hp as [-> | ->]; cbn [priority_name]; decide_names;
      change (4 <=? 5) with true; cbv iota; repeat split; lia.
Qed.

End StatsAfterSubmit.


(* ================================================================== *)
(** * The rating migration *)
(* ================================================================== *)

Lemma map_update_none (cond : Feedback -> bool) (update : Feedback -> Feedback)
    (store : Store) :
  filter cond store = [] ->
  map (fun d => if cond d then update d else d) store = store.
Proof.
  induction store as [|d store IH]; [reflexivity|]. cbn [filter map].
  destruct (cond d); [discriminate|]. intros H. now rewrite IH.
Qed.

Lemma migrated_closed (now : Z) (store : Store) :
  migrated (migrateRatings now store)
  = map (fun d => if lacks_rating d then set_rating now 5 d else d) store.
Proof.
  unfold migrateRatings. cbv zeta. cbn [migrated].
  destruct (Z.ltb_spec 0 (Z.of_nat (List.length (filter lacks_rating store))))
    as [H|H]; [reflexivity|].
  cbn [snd]. symmetry. apply map_update_none.
  destruct (filter lacks_rating store); [reflexivity | cbn [List.length] in H; lia].
Qed.

Lemma modified_closed (now : Z) (store : Store) :
  modifiedCount (migrateRatings now store)
  = Z.of_nat (List.length (filter lacks_rating store)).
Proof.
  unfold migrateRatings. cbv zeta. cbn [modifiedCount].
  destruct (Z.ltb_spec 0 (Z.of_nat (List.length (filter lacks_rating store))))
    as [H|H]; [reflexivity|]. cbn [fst]. lia.
Qed.

Lemma filled_has_rating (now : Z) (d : Feedback) :
  lacks_rating (if lacks_rating d then set_rating now 5 d else d) = false.
Proof.
  destruct (lacks_rating d) eqn:E; [reflexivity | exact E].
Qed.

Lemma migrated_none_lacking (now : Z) (store : Store) :
  filter lacks_rating (migrated (migrateRatings now store)) = [].
Proof.
  rewrite migrated_closed. induction store as [|d store IH]; [reflexivity|].
  cbn [map filter]. now rewrite filled_has_rating.
Qed.

(** The migration gives the rating 5, and the time of the run as the
    time of the last update, to each document without a rating and
    leaves every other document, and every other path, as it was. It
    reports as found and as modified the number of documents that had
    no rating; afterwards every document has a rating and the
    identifiers are those of before, in the same order. *)
Theorem migrate_effect (now : Z) (store : Store) :
  migrated (migrateRatings now store)
  = map (fun d => if lacks_rating d then set_rating now 5 d else d) store
  /\ feedbackWithoutRating (migrateRatings now store)
     = Z.of_nat (List.length (filter lacks_rating store))
  /\ modifiedCount (migrateRatings now store)
     = feedbackWithoutRating (migrateRatings now store)
  /\ (forall d, In d (migrated (migrateRatings now store)) -> rating d <> None)
  /\ (forall d, In d store -> rating d <> None ->
        In d (migrated (migrateRatings now store)))
  /\ map _id (migrated (migrateRatings now store)) = map _id store
  /\ stats (migrateRatings now store)
     = getStats (migrated (migrateRatings now store)).
Proof.
  split; [apply migrated_closed|]. split; [reflexivity|].
  split; [apply modified_closed|]. split; [|split; [|split]].
  - intros d Hd E. pose proof (migrated_none_lacking now store) as H.
    assert (Hin : In d (filter lacks_rating (migrated (migrateRatings now store)))).
    { apply filter_In. split; [exact Hd|]. unfold lacks_rating. now rewrite E. }
    rewrite H in Hin. contradiction.
  - intros d Hd Hr. rewrite migrated_closed. apply in_map_iff. exists d.
    split; [|exact Hd]. unfold lacks_rating. now destruct (rating d).
  - rewrite migrated_closed, map_map. apply map_ext. intros d.
    now destruct (lacks_rating d).
  - reflexivity.
Qed.

(** A second run of the migration, at any time, finds no document
    without a rating, modifies none, leaves the collection as the first
    run left it and reads the same statistics. *)
Theorem migrate_twice (now later : Z) (store : Store) :
  migrateRatings later (migrated (migrateRatings now store))
  = mkMigration 0 0 (migrated (migrateRatings now store))
      (stats (migrateRatings now store)).
Proof.
  unfold migrateRatings at 1. cbv zeta.
  rewrite migrated_none_lacking. reflexivity.
Qed.

Lemma countDocuments_map (q : Query) (f : Feedback -> Feedback) (store : Store) :
  (forall d, matches q (f d) = matches q d) ->
  countDocuments q (map f store) = countDocuments q store.
Proof.
  intros H. induction store as [|d store IH]; [reflexivity|]. cbn [map].
  now rewrite !countDocuments_cons, H, IH.
Qed.

(** The statistics the migration reads back: the total and the counts
    by status and by priority are those of before, and the number of
    high ratings is the one of before plus the number of documents the
    migration gave a rating. *)
Theorem migrate_stats (now : Z) (store : Store) :
  total (stats (migrateRatings now store)) = total (getStats store)
  /\ new (stats (migrateRatings now store)) = new (getStats store)
  /\ read (stats (migrateRatings now store)) = read (getStats store)
  /\ responded (stats (migrateRatings now store)) = responded (getStats store)
  /\ highPriority (stats (migrateRatings now store)) = highPriority (getStats store)
  /\ urgent (stats (migrateRatings now store)) = urgent (getStats store)
  /\ highRatingCount (stats (migrateRatings now store))
     = highRatingCount (getStats store)
       + feedbackWithoutRating (migrateRatings now store).
Proof.
  change (stats (migrateRatings now store))
    with (getStats (migrated (migrateRatings now store))).
  rewrite migrated_closed. unfold getStats.
  cbn [total new read responded highPriority urgent highRatingCount].
  repeat split;
    try (apply countDocuments_map; intros d;
         rewrite ?matches_all, ?matches_status, ?matches_priority;
         now destruct (lacks_rating d)).
  change (feedbackWithoutRating (migrateRatings now store))
    with (Z.of_nat (List.length (filter lacks_rating store))).
  induction store as [|d store IH]; [reflexivity|]. cbn [map filter].
  rewrite !countDocuments_cons, !matches_rating, IH.
  destruct (rating d) as [r|] eqn:R.
  - assert (L : lacks_rating d = false) by (unfold lacks_rating; now rewrite R).
    rewrite L, R. lia.
  - assert (L : lacks_rating d = true) by (unfold lacks_rating; now rewrite R).
    rewrite L. cbn [set_rating rating List.length].
    change (4 <=? 5) with true. cbv iota. lia.
Qed.

Lemma schema_valid_set_rating (now : Z) (d : Feedback) :
  schema_valid d -> schema_valid (set_rating now 5 d).
Proof.
  unfold schema_valid. cbn [set_rating name email message contactNumber rating].
  intros (H1 & H2 & H3 & H4 & H5 & H6 & H7 & H8 & _).
  repeat (split; [assumption|]). intros r [= <-]. lia.
Qed.

(** The migration keeps the identifiers distinct and the documents as
    the schema wants them. *)
Theorem migrate_keeps_store_ok (now : Z) (store : Store) :
  store_ok store -> store_ok (migrated (migrateRatings now store)).
Proof.
  intros [Hid Hall]. split.
  - replace (map _id (migrated (migrateRatings now store))) with (map _id store);
      [exact Hid|].
    rewrite migrated_closed, map_map. apply map_ext. intros d.
    now destruct (lacks_rating d).
  - rewrite migrated_closed. apply Forall_map.
    apply (Forall_impl _ (P := schema_valid)); [|exact Hall].
    intros d Hd. destruct (lacks_rating d); [|exact Hd].
    now apply schema_valid_set_rating.
Qed.





(* ================================================================== *)
(** * More on the listing *)
(* ================================================================== *)


(** What a listing request is answered with, by its page and page
    size: 500 exactly when the number of documents to skip is negative;
    otherwise 200 with the page and page size as given, the number of
    matching documents whatever the page, a previous page exactly from
    page 2 on, at most as many items as the size when the size is not
    zero, and every matching document when it is. *)
Theorem listing_answer (p : ListParams) (store : Store) :
  ((or_default 1 (p_page p) - 1) * or_default 10 (p_limit p) < 0 ->
   listPaged p store = ServerError_500)
  /\ (0 <= (or_default 1 (p_page p) - 1) * or_default 10 (p_limit p) ->
      exists data pg,
        listPaged p store = List_200 data pg
        /\ currentPage pg = or_default 1 (p_page p)
        /\ itemsPerPage pg = or_default 10 (p_limit p)
        /\ totalItems pg = Z.of_nat (List.length (matching p store))
        /\ hasPrevPage pg = (1 <? or_default 1 (p_page p))
        /\ (or_default 10 (p_limit p) <> 0 ->
            (List.length data <= Z.abs_nat (or_default 10%Z (p_limit p)))%nat)
        /\ (or_default 10 (p_limit p) = 0 ->
            data = map (select (list_select p)) (matching p store))).
Proof.
  unfold listPaged, skip. cbv zeta.
  set (page := or_default 1 (p_page p)). set (size := or_default 10 (p_limit p)).
  split.
  - intros H. now rewrite (proj2 (Z.ltb_lt _ _) H).
  - intros H. rewrite (proj2 (Z.ltb_ge _ _) H).
    eexists. eexists. split; [reflexivity|].
    cbn [currentPage itemsPerPage totalItems hasPrevPage].
    split; [reflexivity|]. split; [reflexivity|]. split.
    { unfold countDocuments, matching.
      now rewrite (Permutation_length (sort_desc_perm _)). }
    split; [reflexivity|]. split.
    + intros Hs. rewrite length_map. unfold limit.
      rewrite (proj2 (Z.eqb_neq _ _) Hs). rewrite length_firstn. lia.
    + intros Hs. unfold limit. rewrite Hs, Z.mul_0_r. reflexivity.
Qed.


Lemma pairs_In (max : nat) (lo hi : nat -> nat) (k n : nat) :
  (1 <= n <= max)%nat -> (lo n <= k <= hi n)%nat ->
  In (Z.of_nat k, Z.of_nat n) (pairs max lo hi).
Proof.
  intros Hn Hk. unfold pairs. apply in_flat_map. exists n.
  split; [apply in_seq; lia|]. apply in_map_iff. exists k.
  split; [reflexivity | apply in_seq; lia].
Qed.

Lemma filter_nil_In {A : Type} (f : A -> bool) (l : list A) (x : A) :
  filter f l = [] -> In x l -> f x = false.
Proof.
  intros H Hx. destruct (f x) eqn:E; [|reflexivity].
  assert (Hin : In x (filter f l)) by (apply filter_In; now split).
  rewrite H in Hin. contradiction.
Qed.

(** Up to page 30, page size 50 and 200 matching documents, the page
    count and the next-page flag computed on doubles are the ones
    computed on integers. *)
Lemma page_info_exact_up_to_200 :
  flat_map (fun page => filter (page_info_differs (Z.of_nat page))
                          (pairs 50 (fun _ => 0%nat) (fun _ => 200%nat)))
    (seq 1 30)
  = [].
Proof.
  vm_compute. reflexivity.
Qed.

(** For a page from 1 to 30, a page size from 1 to 50 and at most 200
    matching documents, the listing reports as number of pages the
    number of matching documents divided by the page size, rounded up,
    and reports a next page exactly when matching documents remain
    after this page. *)
Theorem pagination_exact (p : ListParams) (store : Store) :
  1 <= or_default 1 (p_page p) <= 30 ->
  1 <= or_default 10 (p_limit p) <= 50 ->
  (List.length (matching p store) <= 200)%nat ->
  exists data pg,
    listPaged p store = List_200 data pg
    /\ PrimFloat.eqb (totalPages pg)
         (Z2F ((Z.of_nat (List.length (matching p store))
                + or_default 10 (p_limit p) - 1) / or_default 10 (p_limit p)))
       = true
    /\ hasNextPage pg
       = (or_default 1 (p_page p) * or_default 10 (p_limit p)
          <? Z.of_nat (List.length (matching p store))).
Proof.
  intros Hp Hs Hn. unfold listPaged, skip. cbv zeta.
  set (page := or_default 1 (p_page p)) in *.
  set (size := or_default 10 (p_limit p)) in *.
  assert (Hc : countDocuments (list_query p) store
               = Z.of_nat (List.length (matching p store))).
  { unfold countDocuments, matching.
    now rewrite (Permutation_length (sort_desc_perm _)). }
  rewrite Hc. set (n := List.length (matching p store)) in *.
  rewrite (proj2 (Z.ltb_ge _ _)) by nia.
  eexists. eexists. split; [reflexivity|]. cbn [totalPages hasNextPage].
  assert (D : page_info_differs page (Z.of_nat n, size) = false).
  { pose proof page_info_exact_up_to_200 as H.
    assert (Hin : In (Z.to_nat page) (seq 1 30)) by (apply in_seq; lia).
    pose proof (flat_map_nil _ _ H _ Hin) as Hf.
    cbv beta in Hf. rewrite Z2Nat.id in Hf by lia.
    apply (filter_nil_In _ _ _ Hf).
    rewrite <- (Z2Nat.id size) by lia. apply pairs_In; lia. }
  unfold page_info_differs in D. cbv zeta in D. cbn [fst snd] in D.
  apply negb_false_iff, andb_true_iff in D as [D1 D2].
  split; [exact D1 | now apply Bool.eqb_prop in D2].
Qed.

(* ================================================================== *)
(** * Closed instances of the further facts *)
(* ================================================================== *)

Lemma mixed_store_ids : NoDup (map _id mixed_store).
Proof.
  repeat constructor; simpl; intuition discriminate.
Defined.

Lemma legacy_doc_valid : schema_valid legacy_doc.
Proof.
  unfold schema_valid.
  repeat (split; [first [reflexivity | cbn; lia]|]).
  split; intros ? H; discriminate H.
Defined.

Lemma archived_doc_valid : schema_valid archived_doc.
Proof.
  unfold schema_valid.
  repeat (split; [first [reflexivity | cbn; lia]|]).
  split.
  - intros c H. injection H as <-. split; [cbn; lia | reflexivity].
  - intros r H. injection H as <-. lia.
Defined.

Lemma mixed_store_ok : store_ok mixed_store.
Proof.
  split; [exact mixed_store_ids|].
  apply Forall_cons; [exact legacy_doc_valid|].
  apply Forall_cons; [exact archived_doc_valid | apply Forall_nil].
Defined.

Lemma good_body_created :
  statusCode (fst (submit sample_address_check sample_now None None good_body
                     mixed_store)) = 201.
Proof.
  reflexivity.
Defined.

Lemma hook_tags_exactly_witness :
  In "positive" (tags (pre_save true praise_with_bug))
  <-> In "positive" (tags praise_with_bug)
      \/ exists r, In r auto_rules /\ "positive" = snd r
                   /\ contains_any_ci (message praise_with_bug) (fst r).
Proof.
  exact (hook_tags_exactly praise_with_bug "positive" eq_refl).
Defined.

Lemma hook_tags_NoDup_witness : NoDup (tags (pre_save true praise_with_bug)).
Proof.
  exact (hook_tags_NoDup praise_with_bug eq_refl).
Defined.

Lemma pages_cover_matching_witness :
  flat_map (fun i => items_of (listPaged (at_page (Z.of_nat i) (Z.of_nat 10)
                                           (first_page 5)) fifteen_docs))
    (seq 1 2)
  = map (select (list_select (first_page 5)))
      (matching (first_page 5) fifteen_docs).
Proof.
  apply (proj1 (proj2 (pages_cover_matching (first_page 5) fifteen_docs 10 2
                         (Nat.lt_0_succ 9)))).
  vm_compute. lia.
Defined.

Lemma unknown_key_rejected_witness :
  statusCode (fst (submit sample_address_check sample_now None None
                     body_with_rating mixed_store)) = 400
  /\ snd (submit sample_address_check sample_now None None body_with_rating
            mixed_store) = mixed_store.
Proof.
  apply (unknown_key_rejected sample_address_check sample_now None None
           body_with_rating mixed_store "rating").
  - simpl. auto 10.
  - reflexivity.
Defined.

Lemma submit_keeps_store_ok_witness :
  store_ok (snd (submit sample_address_check sample_now None None good_body
                   mixed_store)).
Proof.
  exact (submit_keeps_store_ok sample_address_check sample_now None None
           good_body mixed_store mixed_store_ok).
Defined.

Lemma resubmission_refused_witness :
  submit sample_address_check (sample_now + 1000) None None good_body
    (snd (submit sample_address_check sample_now None None good_body mixed_store))
  = (DuplicateSubmission_429,
     snd (submit sample_address_check sample_now None None good_body mixed_store)).
Proof.
  apply (resubmission_refused sample_address_check sample_now (sample_now + 1000)
           None None None None good_body mixed_store "Maria.Santos@Example.com");
    [exact good_body_created | reflexivity | reflexivity | unfold sample_now; lia].
Defined.

Lemma getById_answers_witness :
  (exists item, getById sample_now (Some 3) mixed_store = Found_200 item
                /\ sent_in_full sample_now legacy_doc item)
  /\ getById sample_now (Some 7) mixed_store = Missing_404.
Proof.
  split.
  - apply (proj1 (getById_answers sample_now 3 mixed_store mixed_store_ids)
             legacy_doc (or_introl eq_refl) eq_refl eq_refl).
    discriminate.
  - exact (proj1 (proj2 (getById_answers sample_now 7 mixed_store mixed_store_ids))
             archived_doc (or_intror (or_introl eq_refl)) eq_refl
             (or_intror eq_refl)).
Defined.

Lemma delete_effect_witness :
  deleteById None headers_with_key (Some 7) mixed_store
  = (Deleted_200, filter (fun d => negb (_id d =? 7)) mixed_store).
Proof.
  apply (proj1 (delete_effect headers_with_key sample_now 7 mixed_store
                  mixed_store_ids headers_with_key_lower)).
  exists archived_doc. split; [right; now left | reflexivity].
Defined.

Lemma submit_then_getById_witness :
  exists doc item,
    fst (submit sample_address_check sample_now None None good_body mixed_store)
    = Created_201 (_id doc) (name doc) (message doc) sample_now S_new
    /\ getById (sample_now + 1000) (Some (_id doc))
         (snd (submit sample_address_check sample_now None None good_body
                 mixed_store))
       = Found_200 item
    /\ sent_in_full (sample_now + 1000) doc item
    /\ rating doc = Some 5.
Proof.
  exact (submit_then_getById sample_address_check sample_now (sample_now + 1000)
           None None good_body mixed_store good_body_created).
Defined.

Lemma getStats_without_ratings_witness :
  averageRating (getStats [legacy_doc]) = 4.8%float
  /\ highRatingCount (getStats [legacy_doc]) = 0
  /\ ([legacy_doc] = [] -> satisfactionPercentage (getStats [legacy_doc]) = 97%float).
Proof.
  apply (getStats_without_ratings [legacy_doc]).
  intros d [<-|[]]. reflexivity.
Defined.

Lemma getStats_after_submit_witness :
  total (getStats (snd (submit sample_address_check sample_now None None
                          good_body mixed_store)))
  = total (getStats mixed_store) + 1.
Proof.
  exact (proj1 (getStats_after_submit sample_address_check sample_now None None
                  good_body mixed_store good_body_created)).
Defined.

Lemma migrate_keeps_store_ok_witness :
  store_ok (migrated (migrateRatings sample_now mixed_store)).
Proof.
  exact (migrate_keeps_store_ok sample_now mixed_store mixed_store_ok).
Defined.



Lemma pagination_exact_witness :
  exists data pg,
    listPaged (first_page 5) fifteen_docs = List_200 data pg
    /\ PrimFloat.eqb (totalPages pg)
         (Z2F ((Z.of_nat (List.length (matching (first_page 5) fifteen_docs))
                + 5 - 1) / 5))
       = true
    /\ hasNextPage pg
       = (1 * 5 <? Z.of_nat (List.length (matching (first_page 5) fifteen_docs))).
Proof.
  apply (pagination_exact (first_page 5) fifteen_docs).
  - cbn. lia.
  - cbn. lia.
  - vm_compute. lia.
Defined.
